(** * ROX TDX bridge: the formula callback and its HTTP client

    A shallow embedding of [src/tdx_bridge/main.cpp] ([CallRoxServer],
    [RoxSignal]) and of the declarations of [src/tdx_bridge/TdxPlugin.h]
    it uses, followed by the properties of the bridge's specification.

    - [float] values are IEEE binary32 numbers ([spec_float] at precision 24,
      [emax] 128); the [double] returned by [atof] is binary64.
    - The C runtime calls of the source ([sprintf_s] with [%.2f], [atof],
      [strlen]) are functions on byte strings.
    - WinHTTP is the environment: a world holds the script of what the
      network does at each exchange and the log of the API calls made. *)

From Stdlib Require Import ZArith List String Ascii Bool Lia.
From Stdlib Require Import Floats.SpecFloat.
From stdpp Require Import base list.

Import ListNotations.
Local Open Scope string_scope.
Local Open Scope Z_scope.

(* ===================================================================== *)
(** ** IEEE binary32 and binary64 values                                  *)
(* ===================================================================== *)

Module F32.

(** C's [float]. *)
Definition float : Type := spec_float.
(** C's [double]. *)
Definition double : Type := spec_float.

Definition prec32 : Z := 24.
Definition emax32 : Z := 128.
Definition prec64 : Z := 53.
Definition emax64 : Z := 1024.

(** The literal [0.0f]. *)
Definition zero : float := S754_zero false.

(** [x == 0.0f]: true of both signed zeros, false of NaN. *)
Definition is_zero (x : float) : bool := SFeqb x zero.

(** A well-formed binary32 datum, which is what the host's arrays hold. *)
Definition is_float (x : float) : bool := valid_binary prec32 emax32 x.

Definition is_finite (x : float) : bool :=
  match x with
  | S754_zero _ | S754_finite _ _ _ => true
  | S754_infinity _ | S754_nan => false
  end.

(** The conversion [(float)d] of a double: round to nearest, ties to even,
    overflowing to an infinity. *)
Definition of_double (d : double) : float :=
  match d with
  | S754_finite s m e => binary_round prec32 emax32 s m e
  | _ => d
  end.

End F32.

Export F32.

(* ===================================================================== *)
(** ** The C runtime functions the source calls                           *)
(* ===================================================================== *)

(** [strlen], the [%s] and [%.2f] conversions of [sprintf_s], and [atof], as
    ISO C defines them in the "C" locale: [%.2f] prints the exact value
    rounded to two decimals (the text for a value that is not finite is left
    to the runtime), [atof] converts the longest prefix that is a
    decimal or hexadecimal floating constant, [inf] or [nan], after white
    space and a sign, and yields the nearest double. *)

Module CRT.

(** The double quote character, code 34. *)
Definition dquote : string := String (ascii_of_nat 34) EmptyString.

(** [strlen]. *)
Definition strlen (s : string) : Z := Z.of_nat (String.length s).

(** The bytes of a [char] array read as a C string: up to the first NUL. *)
Fixpoint c_str (s : string) : string :=
  match s with
  | EmptyString => EmptyString
  | String c r => if (N_of_ascii c =? 0)%N then EmptyString else String c (c_str r)
  end.

(** *** Printing: the [%.2f] conversion *)

Definition digit_char (d : Z) : ascii := ascii_of_N (Z.to_N (48 + d)).

(** Decimal digits of [n >= 0], most significant first, put before [acc]. *)
Fixpoint dec_digits (fuel : nat) (n : Z) (acc : string) : string :=
  match fuel with
  | O => acc
  | S fuel' =>
      let acc' := String (digit_char (n mod 10)) acc in
      if n <? 10 then acc' else dec_digits fuel' (n / 10) acc'
  end.

Definition utoa (n : Z) : string :=
  dec_digits (S (Z.to_nat (Z.log2 n))) n EmptyString.

(** [|x| * 100] for [|x| = m * 2^e], rounded to the nearest integer, ties to
    even. *)
Definition scaled100 (m : positive) (e : Z) : Z :=
  if 0 <=? e then Zpos m * 2 ^ e * 100
  else
    let d := 2 ^ (- e) in
    let q := (Zpos m * 100) / d in
    let r := (Zpos m * 100) mod d in
    match Z.compare (2 * r) d with
    | Lt => q
    | Gt => q + 1
    | Eq => if Z.even q then q else q + 1
    end.

Definition sign_str (s : bool) : string := if s then "-" else "".

(** The digits of [n] hundredths: integer part, point, two decimals. *)
Definition fixed2 (n : Z) : string :=
  utoa (n / 100) ++ "." ++
  String (digit_char ((n / 10) mod 10)) (String (digit_char (n mod 10)) EmptyString).

(** What [%.2f] prints for a finite float argument (promoted to double,
    which changes no value): nothing for one that is not finite. *)
Definition fixed_text (x : float) : option string :=
  match x with
  | S754_zero s => Some (sign_str s ++ "0.00")
  | S754_finite s m e => Some (sign_str s ++ fixed2 (scaled100 m e))
  | S754_infinity _ | S754_nan => None
  end.

(** ISO C's text for a value that is not finite. *)
Definition iso_special (x : float) : string :=
  match x with
  | S754_infinity s => sign_str s ++ "inf"
  | _ => "nan"
  end.

(** What a runtime prints for a value that is not finite is its own: ISO C
    has [nan], [inf] and [-inf]; a NaN whose sign bit is set, which
    [spec_float] does not tell from the others, comes out as [-nan] or
    [-nan(ind)], and older runtimes print texts such as [1.#INF00]. The text
    [special] is the one the runtime prints at this call; it is taken as
    given when it has 3 to 43 characters, as all of these have, and ISO C's
    text stands in for any other. *)
Definition special_text (special : string) (x : float) : string :=
  if (3 <=? strlen special) && (strlen special <=? 43) then special
  else iso_special x.

(** What [%.2f] prints for a float argument, on a runtime that prints
    [special] if the argument is not finite. *)
Definition fmt_2f (special : string) (x : float) : string :=
  match fixed_text x with
  | Some t => t
  | None => special_text special x
  end.

(** *** Parsing: [atof], that is [strtod] with no end pointer *)

Definition isspace (c : ascii) : bool :=
  let n := N_of_ascii c in ((n =? 32) || ((9 <=? n) && (n <=? 13)))%N.

Definition tolower (c : ascii) : ascii :=
  let n := N_of_ascii c in
  if ((65 <=? n) && (n <=? 90))%N then ascii_of_N (n + 32) else c.

Definition digit_of (c : ascii) : option Z :=
  let n := N_of_ascii c in
  if ((48 <=? n) && (n <=? 57))%N then Some (Z.of_N n - 48) else None.

Definition xdigit_of (c : ascii) : option Z :=
  match digit_of c with
  | Some d => Some d
  | None =>
      let n := N_of_ascii (tolower c) in
      if ((97 <=? n) && (n <=? 102))%N then Some (Z.of_N n - 87) else None
  end.

Fixpoint skip_space (s : string) : string :=
  match s with
  | String c r => if isspace c then skip_space r else s
  | EmptyString => s
  end.

(** Reads the longest run of digits: the value accumulated on [acc], the
    number of digits read added to [cnt], and the rest of the input. *)
Fixpoint scan_digits (val : ascii -> option Z) (base : Z)
    (s : string) (acc cnt : Z) : Z * Z * string :=
  match s with
  | String c r =>
      match val c with
      | Some d => scan_digits val base r (acc * base + d) (cnt + 1)
      | None => (acc, cnt, s)
      end
  | EmptyString => (acc, cnt, s)
  end.

(** An optional sign: [true] for a minus. *)
Definition scan_sign (s : string) : bool * string :=
  match s with
  | String "-" r => (true, r)
  | String "+" r => (false, r)
  | _ => (false, s)
  end.

(** Digits, an optional point, more digits: the digits read as one integer,
    the count of integer and of fraction digits, the rest. *)
Definition scan_mantissa (val : ascii -> option Z) (base : Z) (s : string)
    : Z * Z * Z * string :=
  let '(i, ni, r1) := scan_digits val base s 0 0 in
  match r1 with
  | String "." r =>
      let '(m, nf, r2) := scan_digits val base r i 0 in (m, ni, nf, r2)
  | _ => (i, ni, 0, r1)
  end.

(** An exponent part introduced by [mark] (lower case): its value, or 0
    when there is none or it has no digit. *)
Definition scan_exponent (mark : ascii) (s : string) : Z :=
  match s with
  | String c r =>
      if Ascii.eqb (tolower c) mark then
        let '(neg, r1) := scan_sign r in
        let '(v, n, _) := scan_digits digit_of 10 r1 0 0 in
        if n =? 0 then 0 else if neg then - v else v
      else 0
  | EmptyString => 0
  end.

(** The double nearest to [m * 10^e10]. *)
Definition decimal_to_double (neg : bool) (m e10 : Z) : double :=
  match m with
  | Zpos p =>
      if 0 <=? e10
      then binary_round prec64 emax64 neg (Z.to_pos (Zpos p * 10 ^ e10)) 0
      else SFdiv prec64 emax64 (S754_finite neg p 0)
                 (S754_finite false (Z.to_pos (10 ^ (- e10))) 0)
  | _ => S754_zero neg
  end.

(** The double nearest to [m * 2^e2]. *)
Definition binary_to_double (neg : bool) (m e2 : Z) : double :=
  match m with
  | Zpos p => binary_round prec64 emax64 neg p e2
  | _ => S754_zero neg
  end.

Definition parse_decimal (neg : bool) (s : string) : option double :=
  let '(m, ni, nf, r) := scan_mantissa digit_of 10 s in
  if ni + nf =? 0 then None
  else Some (decimal_to_double neg m (scan_exponent "e" r - nf)).

Definition parse_hex (neg : bool) (s : string) : option double :=
  match s with
  | String "0" (String x r) =>
      if Ascii.eqb (tolower x) "x" then
        let '(m, ni, nf, r1) := scan_mantissa xdigit_of 16 r in
        if ni + nf =? 0 then None
        else Some (binary_to_double neg m (scan_exponent "p" r1 - 4 * nf))
      else None
  | _ => None
  end.

Definition lower3 (s : string) : string :=
  match s with
  | String a (String b (String c _)) =>
      String (tolower a) (String (tolower b) (String (tolower c) EmptyString))
  | _ => EmptyString
  end.

Definition parse_special (neg : bool) (s : string) : option double :=
  if String.eqb (lower3 s) "inf" then Some (S754_infinity neg)
  else if String.eqb (lower3 s) "nan" then Some S754_nan
  else None.

(** [strtod] on the subject sequence of [s]: [None] when no conversion can
    be performed. *)
Definition strtod (s : string) : option double :=
  let '(neg, r) := scan_sign (skip_space s) in
  match parse_hex neg r with
  | Some d => Some d
  | None =>
      match parse_decimal neg r with
      | Some d => Some d
      | None => parse_special neg r
      end
  end.

(** [atof]: the converted value, [0.0] when no conversion is performed. *)
Definition atof (s : string) : double :=
  match strtod s with
  | Some d => d
  | None => S754_zero false
  end.

End CRT.

(* ===================================================================== *)
(** ** Outcomes of a C computation                                        *)
(* ===================================================================== *)

(** What stops a C computation instead of letting it return. *)
Inductive Fault : Type :=
  | OutOfBounds        (* an array accessed outside its extent *)
  | InvalidParameter.  (* the CRT invalid-parameter handler, as raised by
                          [sprintf_s] when the text does not fit *)

Inductive Outcome (A : Type) : Type :=
  | Returns (a : A)
  | Crashes (f : Fault).

Arguments Returns {A} a.
Arguments Crashes {A} f.

(* ===================================================================== *)
(** ** WinHTTP as the environment                                         *)
(* ===================================================================== *)

Module WinHttp.

(** [HINTERNET]: the value of the handle, [NULL] being 0. *)
Definition HINTERNET : Type := Z.
Definition NULL : HINTERNET := 0.
Definition DWORD : Type := Z.

(** [!h] *)
Definition is_null (h : HINTERNET) : bool := h =? 0.

(** What the service answered, as far as the client's first read sees it:
    the status line's code and the bytes that are available when
    [WinHttpQueryDataAvailable] is first called (the whole body, for a
    short reply). *)
Record Response : Type := {
  status : Z;
  chunk : string
}.

(** What the environment does during one exchange, call by call: the
    network behind WinHTTP and, for the one thing ISO C leaves to it, the C
    runtime. *)
Record Exchange : Type := {
  open_session : HINTERNET;      (* returned by WinHttpOpen *)
  connect : HINTERNET;           (* returned by WinHttpConnect *)
  open_request : HINTERNET;      (* returned by WinHttpOpenRequest *)
  send : bool;                   (* returned by WinHttpSendRequest *)
  receive : option Response;     (* [None]: WinHttpReceiveResponse fails,
                                    no response arrived (error, time-out) *)
  query : bool;                  (* returned by WinHttpQueryDataAvailable *)
  read : bool;                   (* returned by WinHttpReadData *)
  price_text : string;           (* what the C runtime prints for the price *)
  vol_text : string              (* and for the volume of this call when they
                                    are not finite; empty: as ISO C does *)
}.

(** The exchange of a machine on which WinHTTP cannot even open a
    session. *)
Definition no_exchange : Exchange :=
  {| open_session := NULL; connect := NULL; open_request := NULL;
     send := false; receive := None; query := false; read := false;
     price_text := EmptyString; vol_text := EmptyString |}.

(** The API calls, with the arguments that matter and, for the three that
    create a handle, the handle returned. [WinHttpSetTimeouts] and
    [WinHttpQueryHeaders] belong to the API and are listed for that
    reason. *)
Inductive Call : Type :=
  | CallOpen (agent : string) (ret : HINTERNET)
  | CallConnect (hSession : HINTERNET) (server : string) (port : Z) (ret : HINTERNET)
  | CallOpenRequest (hConnect : HINTERNET) (verb path : string) (ret : HINTERNET)
  | CallSendRequest (hRequest : HINTERNET) (headers body : string) (len : DWORD)
  | CallReceiveResponse (hRequest : HINTERNET)
  | CallQueryDataAvailable (hRequest : HINTERNET)
  | CallReadData (hRequest : HINTERNET) (toRead : DWORD)
  | CallSetTimeouts (h : HINTERNET) (resolve connect send receive : Z)
  | CallQueryHeaders (hRequest : HINTERNET)
  | CallCloseHandle (h : HINTERNET).

(** The state of the environment: the exchanges still to come, the one in
    progress, and every call made so far, oldest first. *)
Record World : Type := {
  pending : list Exchange;
  current : Exchange;
  log : list Call
}.

Definition next (w : World) : Exchange := hd no_exchange (pending w).

End WinHttp.

Export WinHttp.

(** Computations that call into the environment and may crash. *)
Definition M (A : Type) : Type := World -> Outcome (A * World).

Definition ret {A : Type} (a : A) : M A := fun w => Returns (a, w).

Definition bind {A B : Type} (c : M A) (k : A -> M B) : M B :=
  fun w =>
    match c w with
    | Returns (a, w') => k a w'
    | Crashes f => Crashes f
    end.

Definition crash {A : Type} (f : Fault) : M A := fun _ => Crashes f.

Definition lift {A : Type} (o : Outcome A) : M A :=
  fun w => match o with Returns a => Returns (a, w) | Crashes f => Crashes f end.

Declare Scope c_scope.
Delimit Scope c_scope with C.
Notation "'let*' x := c 'in' k" := (bind c (fun x => k))
  (at level 10, x name, c at level 100, k at level 200) : c_scope.
Notation "c ;; k" := (bind c (fun _ => k))
  (at level 100, k at level 200, right associativity) : c_scope.
Local Open Scope c_scope.

Definition record (c : Call) : M unit :=
  fun w => Returns (tt, {| pending := pending w; current := current w;
                           log := log w ++ [c] |}).

(** *** The WinHTTP functions *)

(** A new session starts the next exchange of the script. *)
Definition WinHttpOpen (agent : string) : M HINTERNET :=
  fun w =>
    let ex := next w in
    Returns (open_session ex,
             {| pending := tl (pending w); current := ex;
                log := log w ++ [CallOpen agent (open_session ex)] |}).

Definition WinHttpConnect (hSession : HINTERNET) (server : string) (port : Z)
    : M HINTERNET :=
  fun w =>
    let h := connect (current w) in
    bind (record (CallConnect hSession server port h)) (fun _ => ret h) w.

Definition WinHttpOpenRequest (hConnect : HINTERNET) (verb path : string)
    : M HINTERNET :=
  fun w =>
    let h := open_request (current w) in
    bind (record (CallOpenRequest hConnect verb path h)) (fun _ => ret h) w.

Definition WinHttpSendRequest (hRequest : HINTERNET) (headers body : string)
    (len : DWORD) : M bool :=
  fun w => bind (record (CallSendRequest hRequest headers body len))
                (fun _ => ret (send (current w))) w.

Definition WinHttpReceiveResponse (hRequest : HINTERNET) : M bool :=
  fun w => bind (record (CallReceiveResponse hRequest))
                (fun _ => ret (bool_decide (is_Some (receive (current w))))) w.

(** The bytes the first read can see: none when no response arrived. *)
Definition available (ex : Exchange) : string :=
  match receive ex with
  | Some r => chunk r
  | None => EmptyString
  end.

(** [WinHttpQueryDataAvailable(hRequest, &dwSize)]: the new value of
    [dwSize], which a failed call leaves as it was. *)
Definition WinHttpQueryDataAvailable (hRequest : HINTERNET) (dwSize : DWORD)
    : M DWORD :=
  fun w =>
    let ex := current w in
    bind (record (CallQueryDataAvailable hRequest))
         (fun _ => ret (if bool_decide (is_Some (receive ex)) && query ex
                        then CRT.strlen (available ex) else dwSize)) w.

(** The first [n] bytes of [s]. *)
Fixpoint take_bytes (n : nat) (s : string) : string :=
  match n, s with
  | S n', String c r => String c (take_bytes n' r)
  | _, _ => EmptyString
  end.

(** [WinHttpReadData(hRequest, buffer, toRead, &dwDownloaded)]: the bytes
    copied to the start of [buffer] and the new value of [dwDownloaded]. A
    successful call copies at most [toRead] bytes; a failed one copies nothing
    and leaves [dwDownloaded] as it was. *)
Definition WinHttpReadData (hRequest : HINTERNET) (toRead dwDownloaded : DWORD)
    : M (string * DWORD) :=
  fun w =>
    let ex := current w in
    bind (record (CallReadData hRequest toRead))
         (fun _ =>
            if bool_decide (is_Some (receive ex)) && read ex then
              let data := take_bytes (Z.to_nat toRead) (available ex) in
              ret (data, CRT.strlen data)
            else ret (EmptyString, dwDownloaded)) w.

Definition WinHttpCloseHandle (h : HINTERNET) : M unit :=
  record (CallCloseHandle h).

(** [if (h) WinHttpCloseHandle(h);] *)
Definition close_if_open (h : HINTERNET) : M unit :=
  if is_null h then ret tt else WinHttpCloseHandle h.

(* ===================================================================== *)
(** ** [CallRoxServer] and [RoxSignal]                                    *)
(* ===================================================================== *)

(** The text of the source's format
    [{"code":"%s", "price":%.2f, "vol":%.2f}] for its three arguments, on the
    runtime of the exchange [ex]. *)
Definition payload_text (ex : Exchange) (stockCode : string) (price vol : float)
    : string :=
  ("{" ++ CRT.dquote ++ "code" ++ CRT.dquote ++ ":" ++ CRT.dquote ++ stockCode
   ++ CRT.dquote ++ ", " ++ CRT.dquote ++ "price" ++ CRT.dquote ++ ":"
   ++ CRT.fmt_2f (price_text ex) price ++ ", " ++ CRT.dquote ++ "vol"
   ++ CRT.dquote ++ ":" ++ CRT.fmt_2f (vol_text ex) vol ++ "}")%string.

(** [sprintf_s(buf, fmt, stockCode, price, vol)] into a [char buf[size]]: the
    text needs its terminating NUL to fit, or the invalid-parameter handler
    runs. *)
Definition sprintf_s (size : Z) (stockCode : string) (price vol : float)
    : M string :=
  fun w =>
    let text := payload_text (current w) stockCode price vol in
    if CRT.strlen text <? size then Returns (text, w)
    else Crashes InvalidParameter.

(** [buffer[dwDownloaded] = '\0'] on [char buffer[64]] whose first
    [dwDownloaded] bytes are [data]: the C string it then holds. *)
Definition terminate (size : Z) (data : string) (dwDownloaded : DWORD) : M string :=
  if (0 <=? dwDownloaded) && (dwDownloaded <? size)
  then ret (CRT.c_str (take_bytes (Z.to_nat dwDownloaded) data))
  else crash OutOfBounds.

Definition CallRoxServer (stockCode : string) (price vol : float) : M float :=
  let result := zero in
  (* 1. Open Session *)
  let* hSession := WinHttpOpen "RoxTdxBridge/1.0" in
  if is_null hSession then ret zero else
  (* 2. Connect to localhost:8000 *)
  let* hConnect := WinHttpConnect hSession "127.0.0.1" 8000 in
  if is_null hConnect then (WinHttpCloseHandle hSession ;; ret zero) else
  (* 3. Open Request (POST /api/tdx/calculate) *)
  let* hRequest := WinHttpOpenRequest hConnect "POST" "/api/tdx/calculate" in
  let* result :=
    (if negb (is_null hRequest) then
       let* payload := sprintf_s 256 stockCode price vol in
       let* sent := WinHttpSendRequest hRequest "Content-Type: application/json"
                 payload (CRT.strlen payload) in
       if sent then
         WinHttpReceiveResponse hRequest ;;
         let dwSize := 0 in
         let dwDownloaded := 0 in
         let* dwSize := WinHttpQueryDataAvailable hRequest dwSize in
         if (0 <? dwSize) && (dwSize <? 63) then
           let* rd := WinHttpReadData hRequest dwSize dwDownloaded in
           let* buffer := terminate 64 (fst rd) (snd rd) in
           ret (of_double (CRT.atof buffer))
         else ret result
       else ret result
     else ret result) in
  (* Cleanup *)
  close_if_open hRequest ;;
  close_if_open hConnect ;;
  close_if_open hSession ;;
  ret result.

(** [p[i]] for [float* p] on an array of [length a] floats. *)
Definition load (a : list float) (i : Z) : M float :=
  if 0 <=? i then
    match a !! Z.to_nat i with
    | Some x => ret x
    | None => crash OutOfBounds
    end
  else crash OutOfBounds.

(** [p[i] = x] *)
Definition store (a : list float) (i : Z) (x : float) : M (list float) :=
  if (0 <=? i) && (i <? Z.of_nat (length a))
  then ret (<[Z.to_nat i := x]> a)
  else crash OutOfBounds.

(** [for (; i < DataLen; i++) pfOUT[i] = 0.0f;] from the index [i] on. The
    loop runs at most [DataLen] times, which is all [fuel] has to cover. *)
Fixpoint init_output (fuel : nat) (i DataLen : Z) (pfOUT : list float)
    : M (list float) :=
  match fuel with
  | O => ret pfOUT
  | S fuel' =>
      if i <? DataLen then
        let* pfOUT' := store pfOUT i zero in
        init_output fuel' (i + 1) DataLen pfOUT'
      else ret pfOUT
  end.

(** The callback. The arrays are the extents behind the four pointers; the
    result is the output array as the callback leaves it. *)
Definition RoxSignal (DataLen : Z) (pfOUT pfINa pfINb pfINc : list float)
    : M (list float) :=
  (* Initialize output *)
  let* pfOUT := init_output (Z.to_nat DataLen) 0 DataLen pfOUT in
  if 0 <? DataLen then
    let* lastPrice := load pfINa (DataLen - 1) in
    let* lastVol := load pfINb (DataLen - 1) in
    let* signal := CallRoxServer "UNKNOWN" lastPrice lastVol in
    store pfOUT (DataLen - 1) signal
  else ret pfOUT.

(* ===================================================================== *)
(** ** Observations on worlds, logs and request texts                     *)
(* ===================================================================== *)

(** The world after one exchange that made the calls [tr]. *)
Definition advance (w : World) (tr : list Call) : World :=
  {| pending := tl (pending w); current := next w; log := log w ++ tr |}.

(** The three handles are obtained, so the request is handed to
    [WinHttpSendRequest]. *)
Definition reaches_send (ex : Exchange) : bool :=
  negb (is_null (open_session ex)) && negb (is_null (connect ex))
  && negb (is_null (open_request ex)).

(** The value of [dwSize] after [WinHttpQueryDataAvailable]. *)
Definition size_seen (ex : Exchange) : DWORD :=
  if bool_decide (is_Some (receive ex)) && query ex
  then CRT.strlen (available ex) else 0.

(** The exchange gets as far as [WinHttpReadData]. *)
Definition reads (ex : Exchange) : bool :=
  reaches_send ex && send ex && (0 <? size_seen ex) && (size_seen ex <? 63).

(** The value [CallRoxServer] returns on the exchange [ex]. *)
Definition answer (ex : Exchange) : float :=
  if reads ex && read ex then of_double (CRT.atof (CRT.c_str (available ex)))
  else zero.

Definition closing (h : HINTERNET) : list Call :=
  if is_null h then [] else [CallCloseHandle h].

(** The calls [CallRoxServer] makes on the exchange [ex], in order. *)
Definition calls (stockCode : string) (price vol : float) (ex : Exchange)
    : list Call :=
  let hSession := open_session ex in
  let hConnect := connect ex in
  let hRequest := open_request ex in
  let payload := payload_text ex stockCode price vol in
  CallOpen "RoxTdxBridge/1.0" hSession ::
  if is_null hSession then [] else
  CallConnect hSession "127.0.0.1" 8000 hConnect ::
  if is_null hConnect then [CallCloseHandle hSession] else
  CallOpenRequest hConnect "POST" "/api/tdx/calculate" hRequest ::
  (if is_null hRequest then [] else
     CallSendRequest hRequest "Content-Type: application/json" payload
       (CRT.strlen payload) ::
     if send ex then
       CallReceiveResponse hRequest :: CallQueryDataAvailable hRequest ::
       (if (0 <? size_seen ex) && (size_seen ex <? 63)
        then [CallReadData hRequest (size_seen ex)] else [])
     else [])
  ++ closing hRequest ++ closing hConnect ++ closing hSession.

(** Some stage of the network path fails: a handle is not obtained, the
    request is not sent, no response arrives, the size query or the read
    fails, or the bytes received do not start with a number. *)
Definition network_failure (ex : Exchange) : Prop :=
  open_session ex = NULL \/ connect ex = NULL \/ open_request ex = NULL \/
  send ex = false \/ receive ex = None \/ query ex = false \/
  read ex = false \/ CRT.strtod (CRT.c_str (available ex)) = None.

(** The same exchange under another HTTP status code. *)
Definition with_status (st : Z) (ex : Exchange) : Exchange :=
  {| open_session := open_session ex; connect := connect ex;
     open_request := open_request ex; send := send ex;
     receive := match receive ex with
                | Some r => Some {| status := st; chunk := chunk r |}
                | None => None
                end;
     query := query ex; read := read ex;
     price_text := price_text ex; vol_text := vol_text ex |}.

(** The same exchange on a runtime that prints [priceText] for a price and
    [volText] for a volume that is not finite. *)
Definition printing (priceText volText : string) (ex : Exchange) : Exchange :=
  {| open_session := open_session ex; connect := connect ex;
     open_request := open_request ex; send := send ex;
     receive := receive ex; query := query ex; read := read ex;
     price_text := priceText; vol_text := volText |}.

(** *** Counting calls in a log *)

Fixpoint count (p : Call -> bool) (l : list Call) : nat :=
  match l with
  | [] => 0
  | c :: l' => (if p c then 1 else 0) + count p l'
  end.

Definition is_open (c : Call) : bool :=
  match c with CallOpen _ _ => true | _ => false end.

Definition is_send (c : Call) : bool :=
  match c with CallSendRequest _ _ _ _ => true | _ => false end.

Definition is_set_timeouts (c : Call) : bool :=
  match c with CallSetTimeouts _ _ _ _ _ => true | _ => false end.

Definition is_query_headers (c : Call) : bool :=
  match c with CallQueryHeaders _ => true | _ => false end.

(** The calls that can wait on the network. *)
Definition is_blocking (c : Call) : bool :=
  match c with
  | CallConnect _ _ _ _ | CallSendRequest _ _ _ _ | CallReceiveResponse _
  | CallQueryDataAvailable _ | CallReadData _ _ => true
  | _ => false
  end.

(** The handle a call creates, when it creates one. *)
Definition handle_opened (c : Call) : option HINTERNET :=
  match c with
  | CallOpen _ h | CallConnect _ _ _ h | CallOpenRequest _ _ _ h =>
      if is_null h then None else Some h
  | _ => None
  end.

Definition handle_closed (c : Call) : option HINTERNET :=
  match c with CallCloseHandle h => Some h | _ => None end.

Definition opened_handles (l : list Call) : list HINTERNET := omap handle_opened l.
Definition closed_handles (l : list Call) : list HINTERNET := omap handle_closed l.

(** The bodies of the requests sent. *)
Definition body_sent (c : Call) : option string :=
  match c with CallSendRequest _ _ body _ => Some body | _ => None end.

Definition bodies_sent (l : list Call) : list string := omap body_sent l.

(** *** The shape of a number printed with two decimals *)

Definition is_digit (c : ascii) : bool :=
  match CRT.digit_of c with Some _ => true | None => false end.

Fixpoint all_digits (s : string) : bool :=
  match s with
  | EmptyString => true
  | String c r => is_digit c && all_digits r
  end.

(** An optional minus, one digit or more, a point, exactly two digits. *)
Definition two_decimals (t : string) : Prop :=
  exists (sgn int : string) (d1 d2 : ascii),
    t = (sgn ++ int ++ "." ++ String d1 (String d2 EmptyString))%string /\
    (sgn = EmptyString \/ sgn = "-") /\
    int <> EmptyString /\ all_digits int = true /\
    is_digit d1 = true /\ is_digit d2 = true.

(** The JSON text of a request with the three fields [code], [price] and
    [vol], the last two already printed. *)
Definition json_request (code price vol : string) : string :=
  ("{" ++ CRT.dquote ++ "code" ++ CRT.dquote ++ ":" ++ CRT.dquote ++ code
   ++ CRT.dquote ++ ", " ++ CRT.dquote ++ "price" ++ CRT.dquote ++ ":" ++ price
   ++ ", " ++ CRT.dquote ++ "vol" ++ CRT.dquote ++ ":" ++ vol ++ "}")%string.

(** *** Projections of an outcome *)

Definition value_of {A : Type} (o : Outcome (A * World)) : option A :=
  match o with Returns (a, _) => Some a | Crashes _ => None end.

Definition log_of {A : Type} (o : Outcome (A * World)) : list Call :=
  match o with Returns (_, w) => log w | Crashes _ => [] end.

(** *** The host's side of the contract *)

(** The output array and the two input arrays the callback reads hold
    [DataLen] binary32 numbers each (none when [DataLen] is negative). *)
Definition host_arrays (DataLen : Z) (pfOUT pfINa pfINb : list float) : Prop :=
  length pfOUT = Z.to_nat DataLen /\
  length pfINa = Z.to_nat DataLen /\
  length pfINb = Z.to_nat DataLen /\
  Forall (fun x => is_float x = true) pfINa /\
  Forall (fun x => is_float x = true) pfINb.

(** *** Sample data *)

(** A world in which nothing was called yet and the network will behave as
    scripted. *)
Definition fresh_world (script : list Exchange) : World :=
  {| pending := script; current := no_exchange; log := [] |}.

(** The service is reached and answers [st] with the body [b], on handles
    [h], [h + 1] and [h + 2]. *)
Definition served (h : HINTERNET) (st : Z) (b : string) : Exchange :=
  {| open_session := h; connect := h + 1; open_request := h + 2;
     send := true; receive := Some {| status := st; chunk := b |};
     query := true; read := true;
     price_text := EmptyString; vol_text := EmptyString |}.

(** Nothing listens on the port: the request cannot be sent. *)
Definition refused (h : HINTERNET) : Exchange :=
  {| open_session := h; connect := h + 1; open_request := h + 2;
     send := false; receive := None; query := false; read := false;
     price_text := EmptyString; vol_text := EmptyString |}.

(** The floats 1.0, 10.0 and 500.0. *)
Definition f_1 : float := S754_finite false 8388608 (-23).
Definition f_10 : float := S754_finite false 10485760 (-20).
Definition f_500 : float := S754_finite false 16384000 (-15).

(** The arrays of one refresh: three bars at price 10.00 and volume 500.00,
    and an output array the host has not initialised. *)
Definition bars_out : list float := [S754_nan; S754_nan; S754_nan].
Definition bars_price : list float := [f_10; f_10; f_10].
Definition bars_vol : list float := [f_500; f_500; f_500].

(** The service is up and answers the next two requests with [1.00]. *)
Definition service_up : World :=
  fresh_world [served 1 200 "1.00"; served 4 200 "1.00"].

(** The service answers the next two requests with status 500 and an error
    page. *)
Definition service_failing : World :=
  fresh_world [served 1 500 "Internal Server Error";
               served 4 500 "Internal Server Error"].

(* ===================================================================== *)
(** ** The order of the calls and the handles they are given             *)
(* ===================================================================== *)

Definition is_close (c : Call) : bool :=
  match c with CallCloseHandle _ => true | _ => false end.

(** The place of a call in one HTTP exchange: open the session, connect,
    open the request, send, receive, ask for the size, read. *)
Definition stage (c : Call) : nat :=
  match c with
  | CallOpen _ _ => 0
  | CallConnect _ _ _ _ => 1
  | CallOpenRequest _ _ _ _ => 2
  | CallSendRequest _ _ _ _ => 3
  | CallReceiveResponse _ => 4
  | CallQueryDataAvailable _ => 5
  | CallReadData _ _ => 6
  | CallSetTimeouts _ _ _ _ _ | CallQueryHeaders _ | CallCloseHandle _ => 7
  end.

(** The calls made before the first [WinHttpCloseHandle], and the calls from
    it on. *)
Fixpoint before_close (l : list Call) : list Call :=
  match l with
  | [] => []
  | c :: l' => if is_close c then [] else c :: before_close l'
  end.

Fixpoint from_close (l : list Call) : list Call :=
  match l with
  | [] => []
  | c :: l' => if is_close c then l else from_close l'
  end.

(** The handle a call is given, when it is given one. *)
Definition handle_used (c : Call) : option HINTERNET :=
  match c with
  | CallOpen _ _ => None
  | CallConnect h _ _ _ | CallOpenRequest h _ _ _ | CallSendRequest h _ _ _
  | CallReceiveResponse h | CallQueryDataAvailable h | CallReadData h _
  | CallSetTimeouts h _ _ _ _ | CallQueryHeaders h | CallCloseHandle h => Some h
  end.

(** Every call of [l] is given a handle that is not [NULL] and is in [live]
    or was created by an earlier call of [l]. *)
Fixpoint handles_ok (live : list HINTERNET) (l : list Call) : bool :=
  match l with
  | [] => true
  | c :: l' =>
      match handle_used c with
      | Some h => negb (is_null h) && existsb (Z.eqb h) live
      | None => true
      end
      && handles_ok (match handle_opened c with
                     | Some h => h :: live
                     | None => live
                     end) l'
  end.

(** The constants of the source: the agent name, the server and its port,
    the verb and the path, the header, and a length that is the body's. *)
Definition fixed_endpoint (c : Call) : Prop :=
  match c with
  | CallOpen agent _ => agent = "RoxTdxBridge/1.0"
  | CallConnect _ server port _ => server = "127.0.0.1" /\ port = 8000
  | CallOpenRequest _ verb path _ => verb = "POST" /\ path = "/api/tdx/calculate"
  | CallSendRequest _ headers body len =>
      headers = "Content-Type: application/json" /\ len = CRT.strlen body
  | _ => True
  end.

(** A read asks for [size] bytes, between 1 and 62. *)
Definition read_of_size (size : DWORD) (c : Call) : Prop :=
  match c with
  | CallReadData _ toRead => toRead = size /\ 1 <= toRead <= 62
  | _ => True
  end.

(** An instrument code of 230 characters. *)
Definition long_code : string :=
  String.concat EmptyString (List.repeat "0123456789" 23).

(* ===================================================================== *)
(** ** Facts about the C runtime model                                    *)
(* ===================================================================== *)

Lemma length_append (s t : string) :
  String.length (s ++ t) = (String.length s + String.length t)%nat.
Proof. induction s as [|c s IH]; simpl; [reflexivity | now rewrite IH]. Qed.

Lemma strlen_append (s t : string) :
  CRT.strlen (s ++ t) = CRT.strlen s + CRT.strlen t.
Proof. unfold CRT.strlen. rewrite length_append. lia. Qed.

Lemma strlen_nonneg (s : string) : 0 <= CRT.strlen s.
Proof. unfold CRT.strlen. lia. Qed.

Lemma take_bytes_all (s : string) :
  take_bytes (Z.to_nat (CRT.strlen s)) s = s.
Proof.
  unfold CRT.strlen. rewrite Nat2Z.id.
  induction s as [|c s IH]; simpl; [reflexivity | now rewrite IH].
Qed.

Lemma take_bytes_length (n : nat) (s : string) :
  (String.length (take_bytes n s) <= n)%nat.
Proof.
  revert s. induction n as [|n IH]; intros [|c s]; simpl; try lia.
  specialize (IH s). lia.
Qed.

(** A mantissa of [d] binary digits is below [2^d]. *)
Lemma digits2_pos_bound (m : positive) : Zpos m < 2 ^ Zpos (digits2_pos m).
Proof.
  induction m as [m IH|m IH|]; simpl digits2_pos;
    rewrite ?Pos2Z.inj_succ, ?Z.pow_succ_r by lia; lia.
Qed.

(** The range of a finite binary32 number: 24 bits of mantissa, exponent
    between -149 and 104. *)
Lemma is_float_bounds (s : bool) (m : positive) (e : Z) :
  is_float (S754_finite s m e) = true ->
  Zpos m < 2 ^ 24 /\ -149 <= e <= 104.
Proof.
  unfold is_float, valid_binary, bounded, canonical_mantissa, fexp, emin,
    prec32, emax32.
  intros H. apply andb_prop in H. destruct H as [Hc He].
  apply Z.eqb_eq in Hc. apply Z.leb_le in He.
  pose proof (digits2_pos_bound m) as Hm.
  assert (Hd : Zpos (digits2_pos m) <= 24) by lia.
  split; [|lia].
  eapply Z.lt_le_trans; [exact Hm|].
  apply Z.pow_le_mono_r; lia.
Qed.

Lemma dec_digits_length (fuel : nat) :
  forall (n : Z) (acc : string) (k : nat),
    0 <= n < 10 ^ Z.of_nat (S k) ->
    (String.length (CRT.dec_digits fuel n acc) <= S k + String.length acc)%nat.
Proof.
  induction fuel as [|fuel IH]; intros n acc k Hn; simpl CRT.dec_digits.
  - lia.
  - destruct (Z.ltb_spec n 10) as [Hlt|Hge]; [simpl; lia|].
    destruct k as [|k].
    + change (10 ^ Z.of_nat 1) with 10 in Hn. lia.
    + assert (Hq : 0 <= n / 10 < 10 ^ Z.of_nat (S k)).
      { split; [apply Z.div_pos; lia|].
        apply Z.div_lt_upper_bound; [lia|].
        rewrite (Nat2Z.inj_succ (S k)), Z.pow_succ_r in Hn by lia. lia. }
      specialize (IH (n / 10) (String (CRT.digit_char (n mod 10)) acc) k Hq).
      simpl in IH. lia.
Qed.

Lemma utoa_length (n : Z) (k : nat) :
  0 <= n < 10 ^ Z.of_nat (S k) -> (String.length (CRT.utoa n) <= S k)%nat.
Proof.
  intros Hn. unfold CRT.utoa.
  pose proof (dec_digits_length (S (Z.to_nat (Z.log2 n))) n EmptyString k Hn) as H.
  change (String.length EmptyString) with 0%nat in H. lia.
Qed.

(** The hundredths printed for a finite binary32 number stay below
    [100 * 2^128]. *)
Lemma scaled100_bound (m : positive) (e : Z) :
  Zpos m < 2 ^ 24 -> -149 <= e <= 104 ->
  0 <= CRT.scaled100 m e / 100 < 2 ^ 128.
Proof.
  intros Hm He. unfold CRT.scaled100.
  destruct (Z.leb_spec 0 e) as [Hpos|Hneg].
  - rewrite Z.div_mul by lia.
    assert (Hp : 0 < 2 ^ e <= 2 ^ 104).
    { split; [apply Z.pow_pos_nonneg; lia | apply Z.pow_le_mono_r; lia]. }
    change (2 ^ 128) with (2 ^ 24 * 2 ^ 104).
    split; [nia|].
    apply Z.le_lt_trans with (Zpos m * 2 ^ 104); [nia|].
    apply Z.mul_lt_mono_pos_r; lia.
  - assert (Hd : 0 < 2 ^ (- e)) by (apply Z.pow_pos_nonneg; lia).
    assert (Hq : 0 <= Zpos m * 100 / 2 ^ (- e) <= Zpos m * 100).
    { split; [apply Z.div_pos; lia|].
      apply Z.div_le_upper_bound; [lia|]. nia. }
    assert (Hn : forall n, 0 <= n <= Zpos m * 100 + 1 -> 0 <= n / 100 < 2 ^ 128).
    { intros n Hn. split; [apply Z.div_pos; lia|].
      apply Z.div_lt_upper_bound; [lia|].
      assert (2 ^ 24 * 100 + 1 < 100 * 2 ^ 128) by (vm_compute; reflexivity).
      lia. }
    destruct (2 * (Zpos m * 100 mod 2 ^ (- e)) ?= 2 ^ (- e));
      [destruct (Z.even _)| |]; apply Hn; lia.
Qed.

(** [%.2f] of a binary32 number prints at most 43 characters: a sign, 39
    digits, the point and two decimals. *)
Lemma special_text_length (special : string) (x : float) :
  (3 <= String.length (CRT.special_text special x) <= 43)%nat.
Proof.
  unfold CRT.special_text, CRT.strlen.
  destruct (Z.leb_spec 3 (Z.of_nat (String.length special)));
    destruct (Z.leb_spec (Z.of_nat (String.length special)) 43);
    cbn [andb]; try lia;
    destruct x as [s|s| |s m e]; try destruct s; simpl; lia.
Qed.

Lemma fmt_2f_length (special : string) (x : float) :
  is_float x = true -> (String.length (CRT.fmt_2f special x) <= 43)%nat.
Proof.
  intros Hx. pose proof (special_text_length special x) as Hsp.
  destruct x as [s|s| |s m e]; unfold CRT.fmt_2f; simpl CRT.fixed_text.
  - destruct s; simpl; lia.
  - lia.
  - lia.
  - apply is_float_bounds in Hx. destruct Hx as [Hm He].
    pose proof (scaled100_bound m e Hm He) as Hb.
    assert (Hu : (String.length (CRT.utoa (CRT.scaled100 m e / 100)) <= 39)%nat).
    { apply utoa_length. split; [lia|].
      assert (2 ^ 128 < 10 ^ Z.of_nat 39) by (vm_compute; reflexivity). lia. }
    unfold CRT.fixed2. rewrite !length_append.
    destruct s; simpl String.length; lia.
Qed.

(** The request text fits the source's [char payload[256]] for every code of
    at most 140 characters, so for ["UNKNOWN"]. *)
Lemma payload_fits (ex : Exchange) (stockCode : string) (price vol : float) :
  is_float price = true -> is_float vol = true ->
  (String.length stockCode <= 140)%nat ->
  CRT.strlen (payload_text ex stockCode price vol) < 256.
Proof.
  intros Hp Hv Hc.
  apply (fmt_2f_length (price_text ex)) in Hp.
  apply (fmt_2f_length (vol_text ex)) in Hv.
  unfold payload_text, CRT.strlen. rewrite !length_append.
  simpl String.length. lia.
Qed.

(** The conversion to [float] keeps zeros and makes nothing else of them. *)
Lemma of_double_zero (d : double) :
  is_zero d = true -> is_zero (of_double d) = true.
Proof. destruct d as [s|s| |s m e]; simpl; try discriminate; auto; destruct s; discriminate. Qed.

Lemma atof_no_conversion (s : string) :
  CRT.strtod s = None -> of_double (CRT.atof s) = zero.
Proof. unfold CRT.atof. now intros ->. Qed.

(* ===================================================================== *)
(** ** What one call of [CallRoxServer] does                              *)
(* ===================================================================== *)

Ltac step :=
  cbn beta iota zeta delta
    [pending current log negb andb fst snd open_session connect open_request
     send receive query read available chunk bool_decide decide is_Some_dec
     decide_rel].

(** The same, once the test of [sprintf_s] is known to pass. *)
Ltac step_fits Hfit := step; rewrite ?Hfit; step.

Ltac done_log :=
  change (0 <? 0) with false; step; rewrite <- ?app_assoc; reflexivity.

(** Whenever the request text fits its buffer, [CallRoxServer] returns, with
    the value [answer] and after the calls [calls] of the exchange that the
    network plays next. *)
Lemma CallRoxServer_run (stockCode : string) (price vol : float) (w : World) :
  CRT.strlen (payload_text (next w) stockCode price vol) < 256 ->
  CallRoxServer stockCode price vol w
  = Returns (answer (next w), advance w (calls stockCode price vol (next w))).
Proof.
  intros Hfit. apply Z.ltb_lt in Hfit. revert Hfit.
  unfold CallRoxServer, advance, calls, answer, reads, reaches_send, size_seen,
    closing, close_if_open, sprintf_s, terminate,
    WinHttpOpen, WinHttpConnect, WinHttpOpenRequest, WinHttpSendRequest,
    WinHttpReceiveResponse, WinHttpQueryDataAvailable, WinHttpReadData,
    WinHttpCloseHandle, record, bind, ret, crash.
  destruct (next w) as [hS hC hR snd rcv qry rd pt vt]. intros Hfit. step.
  destruct (is_null hS); step; [done_log|].
  destruct (is_null hC); step; [done_log|].
  destruct (is_null hR); step_fits Hfit; [done_log|].
  destruct snd; step; [|done_log].
  destruct rcv as [[st body]|]; step; [|done_log].
  destruct qry; step; [|done_log].
  destruct (Z.ltb_spec 0 (CRT.strlen body)) as [Hpos|Hle]; step; [|done_log].
  destruct (Z.ltb_spec (CRT.strlen body) 63) as [Hlt|Hge]; step; [|done_log].
  destruct rd; step;
    [|change ((0 <=? 0) && (0 <? 64)) with true; step; done_log].
  rewrite !take_bytes_all.
  destruct (Z.leb_spec 0 (CRT.strlen body)) as [_|Hneg]; [|lia].
  destruct (Z.ltb_spec (CRT.strlen body) 64) as [_|Hbig]; [|lia].
  step. done_log.
Qed.

(** A request text that does not fit stops the process in [sprintf_s], once
    the three handles are there. *)
Lemma CallRoxServer_overflow (stockCode : string) (price vol : float) (w : World) :
  256 <= CRT.strlen (payload_text (next w) stockCode price vol) ->
  reaches_send (next w) = true ->
  CallRoxServer stockCode price vol w = Crashes InvalidParameter.
Proof.
  intros Hbig Hr. apply Z.ltb_ge in Hbig.
  unfold reaches_send in Hr.
  apply andb_prop in Hr. destruct Hr as [Hr H3].
  apply andb_prop in Hr. destruct Hr as [H1 H2].
  apply negb_true_iff in H1, H2, H3.
  unfold CallRoxServer, sprintf_s, WinHttpOpen, WinHttpConnect,
    WinHttpOpenRequest, record, bind, ret, crash.
  step. rewrite H1. step. rewrite H2. step. rewrite H3. step.
  rewrite Hbig. reflexivity.
Qed.

Lemma count_app (p : Call -> bool) (l1 l2 : list Call) :
  count p (l1 ++ l2) = (count p l1 + count p l2)%nat.
Proof. induction l1 as [|c l1 IH]; simpl; [reflexivity | rewrite IH; lia]. Qed.

(** When the service is reached and its reply is 1 to 62 bytes long, the
    answer is the number [atof] reads at the start of the reply. *)
Lemma answer_served (h st : Z) (b : string) :
  h <> 0 -> h + 1 <> 0 -> h + 2 <> 0 -> 0 < CRT.strlen b < 63 ->
  answer (served h st b) = of_double (CRT.atof (CRT.c_str b)).
Proof.
  intros H0 H1 H2 [Hpos Hlt].
  unfold answer, reads, reaches_send, size_seen, served, is_null. cbn.
  apply Z.eqb_neq in H0, H1, H2. rewrite H0, H1, H2. cbn.
  apply Z.ltb_lt in Hpos, Hlt. now rewrite Hpos, Hlt.
Qed.

(** The answer is [0.0f] unless the first chunk is read. *)
Lemma answer_unread (ex : Exchange) : reads ex && read ex = false -> answer ex = zero.
Proof. unfold answer. now intros ->. Qed.

Lemma size_seen_le (ex : Exchange) : size_seen ex <= CRT.strlen (available ex).
Proof.
  unfold size_seen. destruct (_ && _); [lia | apply strlen_nonneg].
Qed.

(** What reading the chunk presupposes. *)
Lemma reads_inv (ex : Exchange) :
  reads ex = true ->
  reaches_send ex = true /\ send ex = true /\ is_Some (receive ex) /\
  query ex = true /\ size_seen ex = CRT.strlen (available ex) /\
  0 < CRT.strlen (available ex) < 63.
Proof.
  unfold reads. intros H.
  apply andb_prop in H. destruct H as [H Hlt].
  apply andb_prop in H. destruct H as [H Hpos].
  apply andb_prop in H. destruct H as [Hr Hs].
  apply Z.ltb_lt in Hlt, Hpos.
  unfold size_seen in *.
  destruct (bool_decide (is_Some (receive ex))) eqn:Hrcv; [|simpl in Hpos; lia].
  destruct (query ex); [|simpl in Hpos; lia].
  simpl in Hpos, Hlt. apply bool_decide_eq_true_1 in Hrcv.
  repeat split; auto; lia.
Qed.

Lemma network_failure_answer (ex : Exchange) :
  network_failure ex -> answer ex = zero.
Proof.
  intros Hf. unfold answer.
  destruct (reads ex) eqn:Hreads; [|reflexivity].
  destruct (read ex) eqn:Hread; [|reflexivity].
  apply reads_inv in Hreads.
  destruct Hreads as (Hr & Hs & Hrcv & Hq & _ & _).
  unfold reaches_send in Hr.
  apply andb_prop in Hr. destruct Hr as [Hr H3].
  apply andb_prop in Hr. destruct Hr as [H1 H2].
  apply negb_true_iff in H1, H2, H3. unfold is_null in *.
  apply Z.eqb_neq in H1, H2, H3.
  unfold network_failure, NULL in Hf.
  destruct Hf as [F|[F|[F|[F|[F|[F|[F|F]]]]]]]; try congruence.
  - rewrite F in Hrcv. destruct Hrcv as [? ?]. discriminate.
  - simpl. now apply atof_no_conversion.
Qed.

(* ===================================================================== *)
(** ** What one call of [RoxSignal] does                                  *)
(* ===================================================================== *)

(** The initialisation loop, entered at index [length pre] with the slots
    [rest] left before [DataLen]: it zeroes them and touches nothing else. *)
Lemma init_output_run (fuel : nat) :
  forall (pre rest : list float) (DataLen : Z) (w : World),
    DataLen = Z.of_nat (length pre + length rest) ->
    (length rest <= fuel)%nat ->
    init_output fuel (Z.of_nat (length pre)) DataLen (pre ++ rest)%list w
    = Returns ((pre ++ replicate (length rest) zero)%list, w).
Proof.
  induction fuel as [|fuel IH]; intros pre rest DataLen w Hlen Hfuel.
  - destruct rest; [reflexivity | simpl in Hfuel; lia].
  - simpl init_output. destruct rest as [|x rest].
    + destruct (Z.ltb_spec (Z.of_nat (length pre)) DataLen) as [Hlt|_];
        [simpl in Hlen; lia | reflexivity].
    + simpl length in Hlen, Hfuel.
      destruct (Z.ltb_spec (Z.of_nat (length pre)) DataLen) as [_|Hge]; [|lia].
      unfold bind at 1. unfold store.
      assert (Hin : (0 <=? Z.of_nat (length pre))
                    && (Z.of_nat (length pre)
                        <? Z.of_nat (length (pre ++ x :: rest)%list))
                    = true).
      { rewrite length_app. simpl length.
        apply andb_true_intro. split; [apply Z.leb_le | apply Z.ltb_lt]; lia. }
      rewrite Hin. unfold ret at 1. rewrite Nat2Z.id.
      rewrite insert_app_r_alt by lia. rewrite Nat.sub_diag. simpl insert.
      replace (Z.of_nat (length pre) + 1)
        with (Z.of_nat (length (pre ++ [zero])%list))
        by (rewrite length_app; simpl; lia).
      rewrite (cons_middle zero pre rest), app_assoc.
      rewrite (IH (pre ++ [zero])%list rest DataLen w).
      * simpl replicate. now rewrite <- app_assoc.
      * rewrite length_app. simpl. lia.
      * lia.
Qed.

(** An output array shorter than [DataLen] is overrun by the loop. *)
Lemma init_output_overrun (fuel : nat) :
  forall (i DataLen : Z) (pfOUT : list float) (w : World),
    0 <= i -> (Z.to_nat i <= length pfOUT)%nat ->
    Z.of_nat (length pfOUT) < DataLen ->
    (Z.to_nat (DataLen - i) <= fuel)%nat ->
    init_output fuel i DataLen pfOUT w = Crashes OutOfBounds.
Proof.
  induction fuel as [|fuel IH]; intros i DataLen pfOUT w Hi Hlen Hshort Hfuel;
    [lia|].
  simpl init_output.
  destruct (Z.ltb_spec i DataLen) as [_|]; [|lia].
  unfold bind, store.
  destruct (Z.ltb_spec i (Z.of_nat (length pfOUT))) as [Hlt|Hge].
  - destruct (Z.leb_spec 0 i) as [_|]; [|lia]. simpl. unfold ret.
    apply IH; rewrite ?length_insert; lia.
  - rewrite andb_false_r. reflexivity.
Qed.

(** With arrays of [DataLen > 0] binary32 numbers, the callback returns the
    array of zeros with the answer of the next exchange in its last slot. *)
Lemma RoxSignal_run (DataLen : Z) (pfOUT pfINa pfINb pfINc : list float)
    (lastPrice lastVol : float) (w : World) :
  0 < DataLen ->
  length pfOUT = Z.to_nat DataLen ->
  pfINa !! Z.to_nat (DataLen - 1) = Some lastPrice ->
  pfINb !! Z.to_nat (DataLen - 1) = Some lastVol ->
  is_float lastPrice = true -> is_float lastVol = true ->
  RoxSignal DataLen pfOUT pfINa pfINb pfINc w
  = Returns ((replicate (Z.to_nat (DataLen - 1)) zero ++ [answer (next w)])%list,
             advance w (calls "UNKNOWN" lastPrice lastVol (next w))).
Proof.
  intros Hpos Hout Ha Hb Hfa Hfb.
  unfold RoxSignal. unfold bind at 1.
  assert (Hinit : init_output (Z.to_nat DataLen) 0 DataLen pfOUT w
                  = Returns (replicate (length pfOUT) zero, w)).
  { apply (init_output_run (Z.to_nat DataLen) [] pfOUT DataLen w);
      simpl; lia. }
  rewrite Hinit, Hout. clear Hinit.
  destruct (Z.ltb_spec 0 DataLen) as [_|]; [|lia].
  unfold bind at 1. unfold load.
  destruct (Z.leb_spec 0 (DataLen - 1)) as [_|]; [|lia].
  rewrite Ha. unfold ret at 1. unfold bind at 1. rewrite Hb. unfold ret at 1.
  unfold bind.
  rewrite CallRoxServer_run by (apply payload_fits; auto; simpl; lia).
  unfold store. rewrite length_replicate.
  assert (Hin : (0 <=? DataLen - 1) && (DataLen - 1 <? Z.of_nat (Z.to_nat DataLen))
                = true).
  { apply andb_true_intro. split; [apply Z.leb_le | apply Z.ltb_lt]; lia. }
  rewrite Hin. unfold ret. do 2 f_equal.
  replace (Z.to_nat DataLen) with (S (Z.to_nat (DataLen - 1))) by lia.
  rewrite replicate_S_end.
  rewrite insert_app_r_alt by (rewrite length_replicate; lia).
  rewrite length_replicate, Nat.sub_diag. reflexivity.
Qed.

(** Without a bar to process, the callback does nothing. *)
Lemma RoxSignal_skip (DataLen : Z) (pfOUT pfINa pfINb pfINc : list float)
    (w : World) :
  DataLen <= 0 ->
  RoxSignal DataLen pfOUT pfINa pfINb pfINc w = Returns (pfOUT, w).
Proof.
  intros Hle. unfold RoxSignal, bind.
  replace (Z.to_nat DataLen) with 0%nat by lia. simpl init_output. unfold ret.
  destruct (Z.ltb_spec 0 DataLen) as [|_]; [lia | reflexivity].
Qed.

(** The last element of an array of [n > 0] binary32 numbers. *)
Lemma last_float (DataLen : Z) (a : list float) :
  0 < DataLen -> length a = Z.to_nat DataLen ->
  Forall (fun x => is_float x = true) a ->
  exists x, a !! Z.to_nat (DataLen - 1) = Some x /\ is_float x = true.
Proof.
  intros Hpos Hlen Hall.
  destruct (lookup_lt_is_Some_2 a (Z.to_nat (DataLen - 1))) as [x Hx]; [lia|].
  exists x. split; [exact Hx|].
  exact (Forall_lookup_1 _ _ _ _ Hall Hx).
Qed.

(* ===================================================================== *)
(** ** The calculation adapter: output array                              *)
(* ===================================================================== *)

(** C1. For every invocation with [DataLen = n > 0] on the host's arrays, in
    every state of the network, [RoxSignal] returns with an output array of
    [n] slots all written: slots 0 to n-2 hold 0.0 and slot n-1 holds the
    value resolved for the last bar, which is what [CallRoxServer "UNKNOWN"]
    returned for the last price and volume and is the [answer] of the
    exchange: the number [atof] reads in the reply when the reply is read,
    0.0 otherwise. The network state is arbitrary, so this covers every early
    return of [CallRoxServer]. *)
Theorem RoxSignal_writes_every_slot
    (DataLen : Z) (pfOUT pfINa pfINb pfINc : list float) (w : World) :
  0 < DataLen ->
  host_arrays DataLen pfOUT pfINa pfINb ->
  exists (lastPrice lastVol signal : float) (out : list float) (w' : World),
    pfINa !! Z.to_nat (DataLen - 1) = Some lastPrice /\
    pfINb !! Z.to_nat (DataLen - 1) = Some lastVol /\
    CallRoxServer "UNKNOWN" lastPrice lastVol w = Returns (signal, w') /\
    RoxSignal DataLen pfOUT pfINa pfINb pfINc w = Returns (out, w') /\
    length out = Z.to_nat DataLen /\
    (forall i : nat, (i < Z.to_nat DataLen - 1)%nat -> out !! i = Some zero) /\
    out !! Z.to_nat (DataLen - 1) = Some signal /\
    signal = answer (next w) /\
    out = (replicate (Z.to_nat (DataLen - 1)) zero ++ [answer (next w)])%list.
Proof.
  intros Hpos (Hout & Hla & Hlb & Hfa & Hfb).
  destruct (last_float DataLen pfINa Hpos Hla Hfa) as (lastPrice & Ha & Hpa).
  destruct (last_float DataLen pfINb Hpos Hlb Hfb) as (lastVol & Hb & Hpb).
  exists lastPrice, lastVol, (answer (next w)).
  eexists. eexists.
  split; [exact Ha|]. split; [exact Hb|].
  split; [apply CallRoxServer_run, payload_fits; auto; simpl; lia|].
  split; [exact (RoxSignal_run DataLen pfOUT pfINa pfINb pfINc lastPrice lastVol
                   w Hpos Hout Ha Hb Hpa Hpb)|].
  split; [rewrite length_app, length_replicate; simpl; lia|].
  split.
  { intros i Hi. rewrite lookup_app_l by (rewrite length_replicate; lia).
    apply lookup_replicate_2. lia. }
  split; [|split; reflexivity].
  rewrite lookup_app_r by (rewrite length_replicate; lia).
  rewrite length_replicate, Nat.sub_diag. reflexivity.
Qed.

(** C7. For every invocation with [DataLen <= 0], whatever the arrays,
    [RoxSignal] returns at once: the output array is as it was and so is the
    world, with no call logged. *)
Theorem RoxSignal_empty_input_noop
    (DataLen : Z) (pfOUT pfINa pfINb pfINc : list float) (w : World) :
  DataLen <= 0 ->
  RoxSignal DataLen pfOUT pfINa pfINb pfINc w = Returns (pfOUT, w).
Proof.
  intros Hle. unfold RoxSignal.
  (* the loop has no iteration to make *)
  assert (Hloop : init_output (Z.to_nat DataLen) 0 DataLen pfOUT w
                  = Returns (pfOUT, w)).
  { replace (Z.to_nat DataLen) with 0%nat by lia. reflexivity. }
  unfold bind. rewrite Hloop.
  (* and the test [DataLen > 0] fails *)
  destruct (Z.ltb_spec 0 DataLen) as [Hpos|_]; [lia | reflexivity].
Qed.

(** C2. For every invocation on the host's arrays and every state of the
    network, [RoxSignal] returns (it never crashes), and whenever a stage of
    the network path fails (session, connection, request, send, receive, size
    query, read or parse) the output array it returns is all zeros. *)
Theorem RoxSignal_absorbs_failures
    (DataLen : Z) (pfOUT pfINa pfINb pfINc : list float) (w : World) :
  host_arrays DataLen pfOUT pfINa pfINb ->
  exists (out : list float) (w' : World),
    RoxSignal DataLen pfOUT pfINa pfINb pfINc w = Returns (out, w') /\
    length out = length pfOUT /\
    (network_failure (next w) -> out = replicate (Z.to_nat DataLen) zero).
Proof.
  intros (Hout & Hla & Hlb & Hfa & Hfb).
  destruct (Z.le_gt_cases DataLen 0) as [Hle|Hpos].
  - exists pfOUT, w. split; [now apply RoxSignal_skip|].
    split; [reflexivity|]. intros _.
    replace (Z.to_nat DataLen) with 0%nat in * by lia.
    now destruct pfOUT.
  - destruct (last_float DataLen pfINa Hpos Hla Hfa) as (lastPrice & Ha & Hpa).
    destruct (last_float DataLen pfINb Hpos Hlb Hfb) as (lastVol & Hb & Hpb).
    eexists. eexists.
    split; [exact (RoxSignal_run DataLen pfOUT pfINa pfINb pfINc lastPrice
                     lastVol w Hpos Hout Ha Hb Hpa Hpb)|].
    split; [rewrite length_app, length_replicate; simpl; lia|].
    intros Hfail. rewrite (network_failure_answer _ Hfail).
    replace (Z.to_nat DataLen) with (S (Z.to_nat (DataLen - 1))) by lia.
    now rewrite replicate_S_end.
Qed.

(* ===================================================================== *)
(** ** Facts about the calls of one exchange                              *)
(* ===================================================================== *)

(** Case analysis on every test the call sequence depends on. *)
Ltac calls_cases ex :=
  unfold calls, closing, reaches_send, opened_handles, closed_handles,
    bodies_sent;
  destruct (is_null (open_session ex)) eqn:HS;
  destruct (is_null (connect ex)) eqn:HC;
  destruct (is_null (open_request ex)) eqn:HR;
  destruct (send ex);
  destruct ((0 <? size_seen ex) && (size_seen ex <? 63));
  cbn; rewrite ?HS, ?HC, ?HR; cbn.

Lemma calls_open (stockCode : string) (price vol : float) (ex : Exchange) :
  count is_open (calls stockCode price vol ex) = 1%nat.
Proof. calls_cases ex; reflexivity. Qed.

Lemma calls_head (stockCode : string) (price vol : float) (ex : Exchange) :
  head (calls stockCode price vol ex) = Some (CallOpen "RoxTdxBridge/1.0" (open_session ex)).
Proof. reflexivity. Qed.

Lemma calls_send (stockCode : string) (price vol : float) (ex : Exchange) :
  count is_send (calls stockCode price vol ex)
  = if reaches_send ex then 1%nat else 0%nat.
Proof. calls_cases ex; reflexivity. Qed.

Lemma calls_bodies (stockCode : string) (price vol : float) (ex : Exchange) :
  bodies_sent (calls stockCode price vol ex)
  = if reaches_send ex then [payload_text ex stockCode price vol] else [].
Proof. calls_cases ex; reflexivity. Qed.

Lemma calls_no_timeouts (stockCode : string) (price vol : float) (ex : Exchange) :
  count is_set_timeouts (calls stockCode price vol ex) = 0%nat.
Proof. calls_cases ex; reflexivity. Qed.

Lemma calls_no_query_headers (stockCode : string) (price vol : float) (ex : Exchange) :
  count is_query_headers (calls stockCode price vol ex) = 0%nat.
Proof. calls_cases ex; reflexivity. Qed.

Lemma calls_length (stockCode : string) (price vol : float) (ex : Exchange) :
  (length (calls stockCode price vol ex) <= 10)%nat.
Proof. calls_cases ex; lia. Qed.

Lemma calls_blocking (stockCode : string) (price vol : float) (ex : Exchange) :
  (count is_blocking (calls stockCode price vol ex) <= 5)%nat.
Proof. calls_cases ex; lia. Qed.

Lemma calls_balanced (stockCode : string) (price vol : float) (ex : Exchange) :
  closed_handles (calls stockCode price vol ex)
  = rev (opened_handles (calls stockCode price vol ex)).
Proof. calls_cases ex; reflexivity. Qed.

(** The status code plays no part in the answer. *)
Lemma answer_with_status (st : Z) (ex : Exchange) :
  answer (with_status st ex) = answer ex.
Proof.
  unfold answer, reads, reaches_send, size_seen, available, with_status.
  cbn. destruct (receive ex) as [[st0 body]|]; reflexivity.
Qed.

(** An empty first chunk, or one of 63 bytes or more, is not read. *)
Lemma answer_size_cap (ex : Exchange) :
  CRT.strlen (available ex) = 0 \/ 63 <= CRT.strlen (available ex) ->
  answer ex = zero.
Proof.
  intros Hsz. apply answer_unread.
  destruct (reads ex) eqn:Hreads; [|reflexivity].
  apply reads_inv in Hreads. lia.
Qed.

(** A nonzero answer comes from a chunk of 1 to 62 bytes whose text [atof]
    converts to a nonzero double. *)
Lemma answer_nonzero (ex : Exchange) :
  is_zero (answer ex) = false ->
  1 <= CRT.strlen (available ex) <= 62 /\
  is_zero (CRT.atof (CRT.c_str (available ex))) = false.
Proof.
  unfold answer. intros Hnz.
  destruct (reads ex) eqn:Hreads; [|discriminate].
  destruct (read ex); [|discriminate]. simpl in Hnz.
  apply reads_inv in Hreads. split; [lia|].
  destruct (is_zero (CRT.atof (CRT.c_str (available ex)))) eqn:Hz; [|reflexivity].
  apply of_double_zero in Hz. congruence.
Qed.

Lemma answer_of_zero (ex : Exchange) :
  is_zero (CRT.atof (CRT.c_str (available ex))) = true ->
  is_zero (answer ex) = true.
Proof.
  intros Hz. unfold answer.
  destruct (reads ex && read ex); [now apply of_double_zero | reflexivity].
Qed.

(* ===================================================================== *)
(** ** The text printed by [%.2f]                                         *)
(* ===================================================================== *)

Lemma digit_char_is_digit (d : Z) :
  0 <= d < 10 -> is_digit (CRT.digit_char d) = true.
Proof.
  intros Hd.
  assert (H : d = 0 \/ d = 1 \/ d = 2 \/ d = 3 \/ d = 4 \/ d = 5 \/ d = 6 \/
              d = 7 \/ d = 8 \/ d = 9) by lia.
  repeat (destruct H as [->|H]; [reflexivity|]). now subst.
Qed.

Lemma dec_digits_all_digits (fuel : nat) :
  forall (n : Z) (acc : string),
    all_digits acc = true -> all_digits (CRT.dec_digits fuel n acc) = true.
Proof.
  induction fuel as [|fuel IH]; intros n acc Hacc; simpl CRT.dec_digits; [exact Hacc|].
  assert (Hacc' : all_digits (String (CRT.digit_char (n mod 10)) acc) = true).
  { simpl. rewrite Hacc, digit_char_is_digit; [reflexivity|].
    apply Z.mod_pos_bound. lia. }
  destruct (n <? 10); [exact Hacc' | now apply IH].
Qed.

Lemma dec_digits_grows (fuel : nat) :
  forall (n : Z) (acc : string),
    (String.length acc <= String.length (CRT.dec_digits fuel n acc))%nat.
Proof.
  induction fuel as [|fuel IH]; intros n acc; simpl CRT.dec_digits; [lia|].
  destruct (n <? 10); [simpl; lia|].
  specialize (IH (n / 10) (String (CRT.digit_char (n mod 10)) acc)).
  simpl in IH. lia.
Qed.

Lemma utoa_digits (n : Z) :
  CRT.utoa n <> EmptyString /\ all_digits (CRT.utoa n) = true.
Proof.
  unfold CRT.utoa. split.
  - intros Hempty.
    pose proof (dec_digits_grows (Z.to_nat (Z.log2 n)) (n / 10)
                  (String (CRT.digit_char (n mod 10)) EmptyString)) as Hg.
    simpl CRT.dec_digits in Hempty.
    destruct (n <? 10); [discriminate|].
    rewrite Hempty in Hg. simpl in Hg. lia.
  - now apply dec_digits_all_digits.
Qed.

Lemma scaled100_nonneg (m : positive) (e : Z) : 0 <= CRT.scaled100 m e.
Proof.
  unfold CRT.scaled100. destruct (Z.leb_spec 0 e) as [Hpos|Hneg].
  - assert (0 < 2 ^ e) by (apply Z.pow_pos_nonneg; lia). nia.
  - assert (Hd : 0 < 2 ^ (- e)) by (apply Z.pow_pos_nonneg; lia).
    assert (Hq : 0 <= Zpos m * 100 / 2 ^ (- e)) by (apply Z.div_pos; lia).
    destruct (2 * (Zpos m * 100 mod 2 ^ (- e)) ?= 2 ^ (- e));
      [destruct (Z.even _)| |]; lia.
Qed.

(** A finite number is printed as an optional minus, the digits of the
    integer part, a point and exactly two digits, whatever the runtime. *)
Lemma fixed_text_two_decimals (x : float) :
  is_finite x = true ->
  exists t : string,
    CRT.fixed_text x = Some t /\ two_decimals t /\
    forall special : string, CRT.fmt_2f special x = t.
Proof.
  destruct x as [s|s| |s m e]; simpl is_finite; try discriminate; intros _.
  - eexists. split; [reflexivity|]. split; [|reflexivity].
    exists (CRT.sign_str s), "0", "0"%char, "0"%char.
    repeat split; try reflexivity; try discriminate.
    destruct s; [right | left]; reflexivity.
  - eexists. split; [reflexivity|]. split; [|reflexivity].
    pose proof (scaled100_nonneg m e) as Hn.
    destruct (utoa_digits (CRT.scaled100 m e / 100)) as [Hne Hdig].
    exists (CRT.sign_str s), (CRT.utoa (CRT.scaled100 m e / 100)),
      (CRT.digit_char ((CRT.scaled100 m e / 10) mod 10)),
      (CRT.digit_char (CRT.scaled100 m e mod 10)).
    split; [reflexivity|].
    split; [destruct s; [right | left]; reflexivity|].
    split; [exact Hne|]. split; [exact Hdig|].
    split; apply digit_char_is_digit; apply Z.mod_pos_bound; lia.
Qed.

(** The source's format string produces the JSON text of the three fields. *)
Lemma payload_is_json (ex : Exchange) (stockCode : string) (price vol : float) :
  payload_text ex stockCode price vol
  = json_request stockCode (CRT.fmt_2f (price_text ex) price)
      (CRT.fmt_2f (vol_text ex) vol).
Proof. reflexivity. Qed.

(* ===================================================================== *)
(** ** The signal client: results                                         *)
(* ===================================================================== *)

(** C3, as stated, fails: a reply with status 500 and the body [1.00] is
    returned as the signal 1.0, exactly as under status 200, and a refused
    connection returns the very float that the valid body [0] returns. *)
Lemma CallRoxServer_status_and_failure_not_distinguished :
  value_of (CallRoxServer "UNKNOWN" f_10 f_500
              (fresh_world [served 1 500 "1.00"])) = Some f_1 /\
  value_of (CallRoxServer "UNKNOWN" f_10 f_500
              service_up) = Some f_1 /\
  value_of (CallRoxServer "UNKNOWN" f_10 f_500 (fresh_world [refused 1]))
  = value_of (CallRoxServer "UNKNOWN" f_10 f_500
                (fresh_world [served 1 200 "0"])).
Proof. vm_compute. repeat split. Qed.

(** C3, amended. [CallRoxServer] has no error result: it returns a float in
    every case. Whenever a stage of the network path fails, or the first
    chunk is empty or 63 bytes or longer, it returns 0.0, the value of a valid
    signal 0.0; and it never looks at the HTTP status: under any other status
    code the same exchange returns the same value. *)
Theorem CallRoxServer_failure_returns_zero
    (stockCode : string) (price vol : float) (w : World) :
  is_float price = true -> is_float vol = true ->
  (String.length stockCode <= 140)%nat ->
  exists (r : float) (w' : World),
    CallRoxServer stockCode price vol w = Returns (r, w') /\
    (network_failure (next w) \/ CRT.strlen (available (next w)) = 0 \/
     63 <= CRT.strlen (available (next w)) -> r = zero) /\
    (forall (st : Z) (w2 : World),
        next w2 = with_status st (next w) ->
        value_of (CallRoxServer stockCode price vol w2) = Some r).
Proof.
  intros Hp Hv Hc.
  pose proof (payload_fits (next w) stockCode price vol Hp Hv Hc) as Hfit.
  exists (answer (next w)). eexists.
  split; [now apply CallRoxServer_run|]. split.
  - intros [Hf|Hsz]; [now apply network_failure_answer | now apply answer_size_cap].
  - intros st w2 Hw2.
    rewrite CallRoxServer_run by (now apply payload_fits). simpl.
    now rewrite Hw2, answer_with_status.
Qed.

(** C10. [CallRoxServer] returns a nonzero value only when the first chunk
    available is 1 to 62 bytes long and [atof] converts its text to a nonzero
    number. When that chunk is empty or 63 bytes or longer, and when its text
    converts to no number, the value is 0.0; when it converts to a zero, the
    value compares equal to 0.0. *)
Theorem CallRoxServer_nonzero_needs_small_numeric_chunk
    (stockCode : string) (price vol : float) (w : World) :
  is_float price = true -> is_float vol = true ->
  (String.length stockCode <= 140)%nat ->
  exists (r : float) (w' : World),
    CallRoxServer stockCode price vol w = Returns (r, w') /\
    (is_zero r = false ->
     1 <= CRT.strlen (available (next w)) <= 62 /\
     is_zero (CRT.atof (CRT.c_str (available (next w)))) = false) /\
    (CRT.strlen (available (next w)) = 0 \/
     63 <= CRT.strlen (available (next w)) -> r = zero) /\
    (CRT.strtod (CRT.c_str (available (next w))) = None -> r = zero) /\
    (is_zero (CRT.atof (CRT.c_str (available (next w)))) = true ->
     is_zero r = true).
Proof.
  intros Hp Hv Hc.
  pose proof (payload_fits (next w) stockCode price vol Hp Hv Hc) as Hfit.
  exists (answer (next w)). eexists.
  split; [now apply CallRoxServer_run|].
  split; [apply answer_nonzero|].
  split; [apply answer_size_cap|].
  split; [|apply answer_of_zero].
  intros Hnone. apply network_failure_answer.
  unfold network_failure. tauto.
Qed.

(* ===================================================================== *)
(** ** The signal client: calls made                                      *)
(* ===================================================================== *)

(** C4, as stated, fails: on an exchange that is served, the request is sent
    and the reply read without any time-out having been set. *)
Lemma CallRoxServer_sets_no_timeout :
  count is_send (log_of (CallRoxServer "UNKNOWN" f_10 f_500
                           service_up)) = 1%nat /\
  count is_set_timeouts (log_of (CallRoxServer "UNKNOWN" f_10 f_500
                                   service_up)) = 0%nat.
Proof. vm_compute. split; reflexivity. Qed.

(** C4, amended. [CallRoxServer] sets no time-out: [WinHttpSetTimeouts] is
    never called. Every invocation returns after at most ten WinHTTP calls,
    of which at most five can wait on the network (connect, send, receive,
    size query, read), each for as long as WinHTTP itself lets it. *)
Theorem CallRoxServer_calls_bounded
    (stockCode : string) (price vol : float) (w : World) :
  is_float price = true -> is_float vol = true ->
  (String.length stockCode <= 140)%nat ->
  exists (r : float) (w' : World) (tr : list Call),
    CallRoxServer stockCode price vol w = Returns (r, w') /\
    log w' = (log w ++ tr)%list /\
    count is_set_timeouts tr = 0%nat /\
    (length tr <= 10)%nat /\
    (count is_blocking tr <= 5)%nat.
Proof.
  intros Hp Hv Hc.
  pose proof (payload_fits (next w) stockCode price vol Hp Hv Hc) as Hfit.
  exists (answer (next w)). eexists. exists (calls stockCode price vol (next w)).
  split; [now apply CallRoxServer_run|].
  split; [reflexivity|].
  split; [apply calls_no_timeouts|].
  split; [apply calls_length | apply calls_blocking].
Qed.

(** C8, as stated, fails: two successive calls open two sessions, and the
    first call has closed its request, connection and session handles before
    it returns. *)
Lemma CallRoxServer_session_not_reused :
  closed_handles (log_of (CallRoxServer "UNKNOWN" f_10 f_500
                            service_up))
  = [3; 2; 1] /\
  count is_open
    (log_of ((CallRoxServer "UNKNOWN" f_10 f_500 ;;
              CallRoxServer "UNKNOWN" f_10 f_500)
               service_up))
  = 2%nat.
Proof. vm_compute. split; reflexivity. Qed.

(** C8, amended. [CallRoxServer] keeps no session between calls: every
    invocation calls [WinHttpOpen] once, as its first call, and before it
    returns it has closed every handle it obtained, the latest first. *)
Theorem CallRoxServer_opens_and_closes_session
    (stockCode : string) (price vol : float) (w : World) :
  is_float price = true -> is_float vol = true ->
  (String.length stockCode <= 140)%nat ->
  exists (r : float) (w' : World) (tr : list Call),
    CallRoxServer stockCode price vol w = Returns (r, w') /\
    log w' = (log w ++ tr)%list /\
    head tr = Some (CallOpen "RoxTdxBridge/1.0" (open_session (next w))) /\
    count is_open tr = 1%nat /\
    closed_handles tr = rev (opened_handles tr).
Proof.
  intros Hp Hv Hc.
  pose proof (payload_fits (next w) stockCode price vol Hp Hv Hc) as Hfit.
  exists (answer (next w)). eexists. exists (calls stockCode price vol (next w)).
  split; [now apply CallRoxServer_run|].
  split; [reflexivity|].
  split; [apply calls_head|].
  split; [apply calls_open | apply calls_balanced].
Qed.

(* ===================================================================== *)
(** ** The calculation adapter: successive invocations                    *)
(* ===================================================================== *)

(** The service answering [1.00] marks the last bar with 1.0. *)
Example RoxSignal_buy_signal :
  value_of (RoxSignal 3 bars_out bars_price bars_vol [] service_up)
  = Some [zero; zero; f_1].
Proof. vm_compute. reflexivity. Qed.

(** C5, as stated, fails: two successive invocations on the same arrays send
    two requests. *)
Lemma RoxSignal_repeat_sends_twice :
  count is_send
    (log_of ((let* out := RoxSignal 3 bars_out bars_price bars_vol [] in
              RoxSignal 3 out bars_price bars_vol [])
               service_up))
  = 2%nat.
Proof. vm_compute. reflexivity. Qed.

(** C5, amended. There is no cache: whatever was called before, an invocation
    with [DataLen > 0] opens a session of its own and sends a request when
    its three handles are obtained. Two successive invocations on the same
    arrays therefore call [WinHttpOpen] twice and send one request each time
    the handles are obtained, two in all when the network is up. *)
Theorem RoxSignal_one_exchange_each
    (DataLen : Z) (pfOUT pfINa pfINb pfINc : list float) (w : World) :
  0 < DataLen ->
  host_arrays DataLen pfOUT pfINa pfINb ->
  exists (out1 out2 : list float) (w1 w2 : World),
    RoxSignal DataLen pfOUT pfINa pfINb pfINc w = Returns (out1, w1) /\
    RoxSignal DataLen out1 pfINa pfINb pfINc w1 = Returns (out2, w2) /\
    count is_open (log w2) = (count is_open (log w) + 2)%nat /\
    count is_send (log w2)
    = (count is_send (log w)
       + (if reaches_send (next w) then 1 else 0)
       + (if reaches_send (next w1) then 1 else 0))%nat.
Proof.
  intros Hpos (Hout & Hla & Hlb & Hfa & Hfb).
  destruct (last_float DataLen pfINa Hpos Hla Hfa) as (lastPrice & Ha & Hpa).
  destruct (last_float DataLen pfINb Hpos Hlb Hfb) as (lastVol & Hb & Hpb).
  pose proof (RoxSignal_run DataLen pfOUT pfINa pfINb pfINc lastPrice lastVol
                w Hpos Hout Ha Hb Hpa Hpb) as Hrun1.
  eexists. eexists. eexists. eexists.
  split; [exact Hrun1|]. split.
  - apply (RoxSignal_run DataLen _ pfINa pfINb pfINc lastPrice lastVol);
      auto.
    rewrite length_app, length_replicate. simpl. lia.
  - unfold advance. cbn [log].
    rewrite !count_app, !calls_open, !calls_send. split; lia.
Qed.

(** C6, as stated, fails: after the service answered 500 with an error
    page, the retried invocation sends a second request; and a reply with
    status 500 whose body is [1.00] puts 1.0, not 0.0, in the last slot. *)
Lemma RoxSignal_retry_sends_again :
  count is_send
    (log_of ((let* out := RoxSignal 3 bars_out bars_price bars_vol [] in
              RoxSignal 3 out bars_price bars_vol [])
               service_failing))
  = 2%nat /\
  value_of (RoxSignal 3 bars_out bars_price bars_vol []
              (fresh_world [served 1 500 "1.00"]))
  = Some [zero; zero; f_1].
Proof. vm_compute. split; reflexivity. Qed.

(** C6, amended. After a failure of the network path (or a reply whose body
    does not start with a number, such as an error page) the caller finds 0.0
    in the last output slot, and nothing is remembered: the retried
    invocation opens a new session, sends a new request when its handles are
    obtained, and writes what this new exchange returns. *)
Theorem RoxSignal_failure_not_cached
    (DataLen : Z) (pfOUT pfINa pfINb pfINc : list float) (w : World) :
  0 < DataLen ->
  host_arrays DataLen pfOUT pfINa pfINb ->
  network_failure (next w) ->
  exists (lastPrice lastVol retried : float) (out1 out2 : list float)
         (w1 w2 : World),
    RoxSignal DataLen pfOUT pfINa pfINb pfINc w = Returns (out1, w1) /\
    out1 !! Z.to_nat (DataLen - 1) = Some zero /\
    RoxSignal DataLen out1 pfINa pfINb pfINc w1 = Returns (out2, w2) /\
    count is_open (log w2) = (count is_open (log w1) + 1)%nat /\
    count is_send (log w2)
    = (count is_send (log w1) + (if reaches_send (next w1) then 1 else 0))%nat /\
    pfINa !! Z.to_nat (DataLen - 1) = Some lastPrice /\
    pfINb !! Z.to_nat (DataLen - 1) = Some lastVol /\
    CallRoxServer "UNKNOWN" lastPrice lastVol w1 = Returns (retried, w2) /\
    out2 !! Z.to_nat (DataLen - 1) = Some retried.
Proof.
  intros Hpos (Hout & Hla & Hlb & Hfa & Hfb) Hfail.
  destruct (last_float DataLen pfINa Hpos Hla Hfa) as (lastPrice & Ha & Hpa).
  destruct (last_float DataLen pfINb Hpos Hlb Hfb) as (lastVol & Hb & Hpb).
  pose proof (RoxSignal_run DataLen pfOUT pfINa pfINb pfINc lastPrice lastVol
                w Hpos Hout Ha Hb Hpa Hpb) as Hrun1.
  rewrite (network_failure_answer _ Hfail) in Hrun1.
  assert (Hlast : forall x : float,
             (replicate (Z.to_nat (DataLen - 1)) zero ++ [x])%list
               !! Z.to_nat (DataLen - 1) = Some x).
  { intros x. rewrite lookup_app_r by (rewrite length_replicate; lia).
    rewrite length_replicate, Nat.sub_diag. reflexivity. }
  exists lastPrice, lastVol. eexists. eexists. eexists. eexists. eexists.
  split; [exact Hrun1|].
  split; [apply Hlast|].
  split.
  { apply (RoxSignal_run DataLen _ pfINa pfINb pfINc lastPrice lastVol); auto.
    rewrite length_app, length_replicate. simpl. lia. }
  split; [unfold advance at 1; cbn [log]; rewrite count_app, calls_open; lia|].
  split; [unfold advance at 1; cbn [log]; rewrite count_app, calls_send; lia|].
  split; [exact Ha|]. split; [exact Hb|].
  split; [apply CallRoxServer_run, payload_fits; auto; simpl; lia|].
  apply Hlast.
Qed.

(* ===================================================================== *)
(** ** The request body                                                   *)
(* ===================================================================== *)

(** C9, as stated, fails: the code field of the body sent is the upper-case
    [UNKNOWN], so the body is not the one with the placeholder [unknown]; and
    a price that is not a number is printed, on a runtime that follows ISO C,
    as [nan], which has no decimals. *)
Lemma RoxSignal_placeholder_is_upper_case :
  bodies_sent
    (log_of (RoxSignal 3 bars_out bars_price bars_vol [] service_up))
  = [json_request "UNKNOWN" "10.00" "500.00"] /\
  json_request "UNKNOWN" "10.00" "500.00"
  <> json_request "unknown" "10.00" "500.00" /\
  bodies_sent (log_of (RoxSignal 1 [S754_nan] [S754_nan] [f_500] [] service_up))
  = [json_request "UNKNOWN" "nan" "500.00"] /\
  ~ two_decimals "nan".
Proof.
  split; [vm_compute; reflexivity|].
  split; [discriminate|].
  split; [vm_compute; reflexivity|].
  intros (sgn & int & d1 & d2 & Heq & _ & Hne & _).
  apply (f_equal String.length) in Heq.
  rewrite !length_append in Heq. simpl in Heq.
  destruct int; [now apply Hne | simpl in Heq; lia].
Qed.

(** A NaN whose sign bit is set, on a runtime that prints it as [-nan]. *)
Example RoxSignal_sign_bit_nan :
  bodies_sent
    (log_of (RoxSignal 1 [S754_nan] [S754_nan] [f_500] []
               (fresh_world [printing "-nan" "" (served 1 200 "1.00")])))
  = [json_request "UNKNOWN" "-nan" "500.00"].
Proof. vm_compute. reflexivity. Qed.

(** C9, amended. Every request [RoxSignal] sends has as its body the JSON
    object with exactly the fields [code], [price] and [vol], where [code] is
    the placeholder [UNKNOWN] in upper case. When the last price is finite,
    the [price] field is that price printed by [%.2f]: an optional minus,
    digits, a point and exactly two digits; and so for the last volume and
    the [vol] field. What is printed for a price or a volume that is not
    finite is the runtime's own text and is left open. One such request is
    sent when the three handles are obtained, none otherwise. *)
Theorem RoxSignal_request_body
    (DataLen : Z) (pfOUT pfINa pfINb pfINc : list float) (w : World) :
  0 < DataLen ->
  host_arrays DataLen pfOUT pfINa pfINb ->
  exists (lastPrice lastVol : float) (priceText volText : string)
         (out : list float) (w' : World) (tr : list Call),
    pfINa !! Z.to_nat (DataLen - 1) = Some lastPrice /\
    pfINb !! Z.to_nat (DataLen - 1) = Some lastVol /\
    RoxSignal DataLen pfOUT pfINa pfINb pfINc w = Returns (out, w') /\
    log w' = (log w ++ tr)%list /\
    bodies_sent tr
    = (if reaches_send (next w)
       then [json_request "UNKNOWN" priceText volText]
       else []) /\
    (is_finite lastPrice = true ->
     CRT.fixed_text lastPrice = Some priceText /\ two_decimals priceText) /\
    (is_finite lastVol = true ->
     CRT.fixed_text lastVol = Some volText /\ two_decimals volText).
Proof.
  intros Hpos (Hout & Hla & Hlb & Hfa & Hfb).
  destruct (last_float DataLen pfINa Hpos Hla Hfa) as (lastPrice & Ha & Hpa).
  destruct (last_float DataLen pfINb Hpos Hlb Hfb) as (lastVol & Hb & Hpb).
  exists lastPrice, lastVol,
    (CRT.fmt_2f (price_text (next w)) lastPrice),
    (CRT.fmt_2f (vol_text (next w)) lastVol).
  eexists. eexists.
  exists (calls "UNKNOWN" lastPrice lastVol (next w)).
  split; [exact Ha|]. split; [exact Hb|].
  split; [exact (RoxSignal_run DataLen pfOUT pfINa pfINb pfINc lastPrice lastVol
                   w Hpos Hout Ha Hb Hpa Hpb)|].
  split; [reflexivity|].
  split; [rewrite calls_bodies, payload_is_json; reflexivity|].
  split; intros Hfin;
    destruct (fixed_text_two_decimals _ Hfin) as (t & Ht & Htwo & Hfmt);
    rewrite Hfmt; auto.
Qed.

(* ===================================================================== *)
(** ** The theorems at one refresh of three bars                          *)
(* ===================================================================== *)

Lemma f_10_is_float : is_float f_10 = true.
Proof. reflexivity. Defined.

Lemma f_500_is_float : is_float f_500 = true.
Proof. reflexivity. Defined.

Lemma unknown_is_short : (String.length "UNKNOWN" <= 140)%nat.
Proof. simpl. lia. Defined.

Lemma three_bars : 0 < 3.
Proof. reflexivity. Defined.

Lemma bars_are_host_arrays : host_arrays 3 bars_out bars_price bars_vol.
Proof. repeat split; repeat constructor. Defined.

Lemma error_page_is_failure : network_failure (next service_failing).
Proof. do 7 right. reflexivity. Defined.

Lemma RoxSignal_writes_every_slot_witness :
  0 < 3 /\ host_arrays 3 bars_out bars_price bars_vol /\
  exists (lastPrice lastVol signal : float) (out : list float) (w' : World),
    bars_price !! Z.to_nat (3 - 1) = Some lastPrice /\
    bars_vol !! Z.to_nat (3 - 1) = Some lastVol /\
    CallRoxServer "UNKNOWN" lastPrice lastVol service_up = Returns (signal, w') /\
    RoxSignal 3 bars_out bars_price bars_vol [] service_up = Returns (out, w') /\
    length out = Z.to_nat 3 /\
    (forall i : nat, (i < Z.to_nat 3 - 1)%nat -> out !! i = Some zero) /\
    out !! Z.to_nat (3 - 1) = Some signal /\
    signal = answer (next service_up) /\
    out = (replicate (Z.to_nat (3 - 1)) zero ++ [answer (next service_up)])%list.
Proof.
  split; [exact three_bars|]. split; [exact bars_are_host_arrays|].
  exact (RoxSignal_writes_every_slot 3 bars_out bars_price bars_vol []
           service_up three_bars bars_are_host_arrays).
Defined.

Lemma RoxSignal_empty_input_noop_witness :
  0 <= 0 /\
  RoxSignal 0 bars_out bars_price bars_vol [] service_up
  = Returns (bars_out, service_up).
Proof.
  split; [apply Z.le_refl|].
  exact (RoxSignal_empty_input_noop 0 bars_out bars_price bars_vol []
           service_up (Z.le_refl 0)).
Defined.

Lemma RoxSignal_absorbs_failures_witness :
  host_arrays 3 bars_out bars_price bars_vol /\
  exists (out : list float) (w' : World),
    RoxSignal 3 bars_out bars_price bars_vol [] service_failing
    = Returns (out, w') /\
    length out = length bars_out /\
    (network_failure (next service_failing) ->
     out = replicate (Z.to_nat 3) zero).
Proof.
  split; [exact bars_are_host_arrays|].
  exact (RoxSignal_absorbs_failures 3 bars_out bars_price bars_vol []
           service_failing bars_are_host_arrays).
Defined.

Lemma CallRoxServer_failure_returns_zero_witness :
  is_float f_10 = true /\ is_float f_500 = true /\
  (String.length "UNKNOWN" <= 140)%nat /\
  exists (r : float) (w' : World),
    CallRoxServer "UNKNOWN" f_10 f_500 service_failing = Returns (r, w') /\
    (network_failure (next service_failing) \/
     CRT.strlen (available (next service_failing)) = 0 \/
     63 <= CRT.strlen (available (next service_failing)) -> r = zero) /\
    (forall (st : Z) (w2 : World),
        next w2 = with_status st (next service_failing) ->
        value_of (CallRoxServer "UNKNOWN" f_10 f_500 w2) = Some r).
Proof.
  split; [exact f_10_is_float|]. split; [exact f_500_is_float|].
  split; [exact unknown_is_short|].
  exact (CallRoxServer_failure_returns_zero "UNKNOWN" f_10 f_500
           service_failing f_10_is_float f_500_is_float unknown_is_short).
Defined.

Lemma CallRoxServer_nonzero_needs_small_numeric_chunk_witness :
  is_float f_10 = true /\ is_float f_500 = true /\
  (String.length "UNKNOWN" <= 140)%nat /\
  exists (r : float) (w' : World),
    CallRoxServer "UNKNOWN" f_10 f_500 service_up = Returns (r, w') /\
    (is_zero r = false ->
     1 <= CRT.strlen (available (next service_up)) <= 62 /\
     is_zero (CRT.atof (CRT.c_str (available (next service_up)))) = false) /\
    (CRT.strlen (available (next service_up)) = 0 \/
     63 <= CRT.strlen (available (next service_up)) -> r = zero) /\
    (CRT.strtod (CRT.c_str (available (next service_up))) = None -> r = zero) /\
    (is_zero (CRT.atof (CRT.c_str (available (next service_up)))) = true ->
     is_zero r = true).
Proof.
  split; [exact f_10_is_float|]. split; [exact f_500_is_float|].
  split; [exact unknown_is_short|].
  exact (CallRoxServer_nonzero_needs_small_numeric_chunk "UNKNOWN" f_10 f_500
           service_up f_10_is_float f_500_is_float unknown_is_short).
Defined.

Lemma CallRoxServer_calls_bounded_witness :
  is_float f_10 = true /\ is_float f_500 = true /\
  (String.length "UNKNOWN" <= 140)%nat /\
  exists (r : float) (w' : World) (tr : list Call),
    CallRoxServer "UNKNOWN" f_10 f_500 service_up = Returns (r, w') /\
    log w' = (log service_up ++ tr)%list /\
    count is_set_timeouts tr = 0%nat /\
    (length tr <= 10)%nat /\
    (count is_blocking tr <= 5)%nat.
Proof.
  split; [exact f_10_is_float|]. split; [exact f_500_is_float|].
  split; [exact unknown_is_short|].
  exact (CallRoxServer_calls_bounded "UNKNOWN" f_10 f_500 service_up
           f_10_is_float f_500_is_float unknown_is_short).
Defined.

Lemma CallRoxServer_opens_and_closes_session_witness :
  is_float f_10 = true /\ is_float f_500 = true /\
  (String.length "UNKNOWN" <= 140)%nat /\
  exists (r : float) (w' : World) (tr : list Call),
    CallRoxServer "UNKNOWN" f_10 f_500 service_up = Returns (r, w') /\
    log w' = (log service_up ++ tr)%list /\
    head tr = Some (CallOpen "RoxTdxBridge/1.0" (open_session (next service_up))) /\
    count is_open tr = 1%nat /\
    closed_handles tr = rev (opened_handles tr).
Proof.
  split; [exact f_10_is_float|]. split; [exact f_500_is_float|].
  split; [exact unknown_is_short|].
  exact (CallRoxServer_opens_and_closes_session "UNKNOWN" f_10 f_500 service_up
           f_10_is_float f_500_is_float unknown_is_short).
Defined.

Lemma RoxSignal_one_exchange_each_witness :
  0 < 3 /\ host_arrays 3 bars_out bars_price bars_vol /\
  exists (out1 out2 : list float) (w1 w2 : World),
    RoxSignal 3 bars_out bars_price bars_vol [] service_up = Returns (out1, w1) /\
    RoxSignal 3 out1 bars_price bars_vol [] w1 = Returns (out2, w2) /\
    count is_open (log w2) = (count is_open (log service_up) + 2)%nat /\
    count is_send (log w2)
    = (count is_send (log service_up)
       + (if reaches_send (next service_up) then 1 else 0)
       + (if reaches_send (next w1) then 1 else 0))%nat.
Proof.
  split; [exact three_bars|]. split; [exact bars_are_host_arrays|].
  exact (RoxSignal_one_exchange_each 3 bars_out bars_price bars_vol []
           service_up three_bars bars_are_host_arrays).
Defined.

Lemma RoxSignal_failure_not_cached_witness :
  0 < 3 /\ host_arrays 3 bars_out bars_price bars_vol /\
  network_failure (next service_failing) /\
  exists (lastPrice lastVol retried : float) (out1 out2 : list float)
         (w1 w2 : World),
    RoxSignal 3 bars_out bars_price bars_vol [] service_failing
    = Returns (out1, w1) /\
    out1 !! Z.to_nat (3 - 1) = Some zero /\
    RoxSignal 3 out1 bars_price bars_vol [] w1 = Returns (out2, w2) /\
    count is_open (log w2) = (count is_open (log w1) + 1)%nat /\
    count is_send (log w2)
    = (count is_send (log w1) + (if reaches_send (next w1) then 1 else 0))%nat /\
    bars_price !! Z.to_nat (3 - 1) = Some lastPrice /\
    bars_vol !! Z.to_nat (3 - 1) = Some lastVol /\
    CallRoxServer "UNKNOWN" lastPrice lastVol w1 = Returns (retried, w2) /\
    out2 !! Z.to_nat (3 - 1) = Some retried.
Proof.
  split; [exact three_bars|]. split; [exact bars_are_host_arrays|].
  split; [exact error_page_is_failure|].
  exact (RoxSignal_failure_not_cached 3 bars_out bars_price bars_vol []
           service_failing three_bars bars_are_host_arrays
           error_page_is_failure).
Defined.

Lemma RoxSignal_request_body_witness :
  0 < 3 /\ host_arrays 3 bars_out bars_price bars_vol /\
  exists (lastPrice lastVol : float) (priceText volText : string)
         (out : list float) (w' : World) (tr : list Call),
    bars_price !! Z.to_nat (3 - 1) = Some lastPrice /\
    bars_vol !! Z.to_nat (3 - 1) = Some lastVol /\
    RoxSignal 3 bars_out bars_price bars_vol [] service_up = Returns (out, w') /\
    log w' = (log service_up ++ tr)%list /\
    bodies_sent tr
    = (if reaches_send (next service_up)
       then [json_request "UNKNOWN" priceText volText]
       else []) /\
    (is_finite lastPrice = true ->
     CRT.fixed_text lastPrice = Some priceText /\ two_decimals priceText) /\
    (is_finite lastVol = true ->
     CRT.fixed_text lastVol = Some volText /\ two_decimals volText).
Proof.
  split; [exact three_bars|]. split; [exact bars_are_host_arrays|].
  exact (RoxSignal_request_body 3 bars_out bars_price bars_vol [] service_up
           three_bars bars_are_host_arrays).
Defined.

(* ===================================================================== *)
(** ** [RoxSignal] and the extents of its arrays                          *)
(* ===================================================================== *)

(** The loop on an array that goes on after [DataLen]: the slots [mid] up to
    [DataLen] are zeroed, the slots [post] after them are left alone. *)
Lemma init_output_frame (fuel : nat) :
  forall (pre mid post : list float) (DataLen : Z) (w : World),
    DataLen = Z.of_nat (length pre + length mid) ->
    (length mid <= fuel)%nat ->
    init_output fuel (Z.of_nat (length pre)) DataLen (pre ++ mid ++ post)%list w
    = Returns ((pre ++ replicate (length mid) zero ++ post)%list, w).
Proof.
  induction fuel as [|fuel IH]; intros pre mid post DataLen w Hlen Hfuel.
  - destruct mid; [reflexivity | simpl in Hfuel; lia].
  - simpl init_output. destruct mid as [|x mid].
    + destruct (Z.ltb_spec (Z.of_nat (length pre)) DataLen) as [Hlt|_];
        [simpl in Hlen; lia | reflexivity].
    + simpl length in Hlen, Hfuel.
      destruct (Z.ltb_spec (Z.of_nat (length pre)) DataLen) as [_|Hge]; [|lia].
      unfold bind at 1. unfold store.
      assert (Hin : (0 <=? Z.of_nat (length pre))
                    && (Z.of_nat (length pre)
                        <? Z.of_nat (length (pre ++ (x :: mid) ++ post)%list))
                    = true).
      { rewrite !length_app. simpl length.
        apply andb_true_intro. split; [apply Z.leb_le | apply Z.ltb_lt]; lia. }
      rewrite Hin. unfold ret at 1. rewrite Nat2Z.id.
      rewrite insert_app_r_alt by lia. rewrite Nat.sub_diag. simpl insert.
      replace (Z.of_nat (length pre) + 1)
        with (Z.of_nat (length (pre ++ [zero])%list))
        by (rewrite length_app; simpl; lia).
      rewrite (cons_middle zero pre (mid ++ post)), app_assoc.
      rewrite (IH (pre ++ [zero])%list mid post DataLen w).
      * simpl replicate. now rewrite <- !app_assoc.
      * rewrite length_app. simpl. lia.
      * lia.
Qed.

(** The callback on arrays of at least [DataLen > 0] numbers. *)
Lemma RoxSignal_run_frame (DataLen : Z) (pfOUT pfINa pfINb pfINc : list float)
    (lastPrice lastVol : float) (w : World) :
  0 < DataLen ->
  DataLen <= Z.of_nat (length pfOUT) ->
  pfINa !! Z.to_nat (DataLen - 1) = Some lastPrice ->
  pfINb !! Z.to_nat (DataLen - 1) = Some lastVol ->
  is_float lastPrice = true -> is_float lastVol = true ->
  RoxSignal DataLen pfOUT pfINa pfINb pfINc w
  = Returns ((replicate (Z.to_nat (DataLen - 1)) zero ++ [answer (next w)]
              ++ drop (Z.to_nat DataLen) pfOUT)%list,
             advance w (calls "UNKNOWN" lastPrice lastVol (next w))).
Proof.
  intros Hpos Hout Ha Hb Hfa Hfb.
  unfold RoxSignal. unfold bind at 1.
  assert (Htake : length (take (Z.to_nat DataLen) pfOUT) = Z.to_nat DataLen)
    by (rewrite length_take; lia).
  assert (Hinit : init_output (Z.to_nat DataLen) 0 DataLen pfOUT w
                  = Returns ((replicate (Z.to_nat DataLen) zero
                              ++ drop (Z.to_nat DataLen) pfOUT)%list, w)).
  { rewrite <- (take_drop (Z.to_nat DataLen) pfOUT) at 1.
    pose proof (init_output_frame (Z.to_nat DataLen) []
                  (take (Z.to_nat DataLen) pfOUT)
                  (drop (Z.to_nat DataLen) pfOUT) DataLen w) as H.
    rewrite Htake in H. apply H; simpl; lia. }
  rewrite Hinit. clear Hinit.
  destruct (Z.ltb_spec 0 DataLen) as [_|]; [|lia].
  unfold bind at 1. unfold load.
  destruct (Z.leb_spec 0 (DataLen - 1)) as [_|]; [|lia].
  rewrite Ha. unfold ret at 1. unfold bind at 1. rewrite Hb. unfold ret at 1.
  unfold bind.
  rewrite CallRoxServer_run by (apply payload_fits; auto; simpl; lia).
  unfold store. rewrite length_app, length_replicate.
  assert (Hin : (0 <=? DataLen - 1)
                && (DataLen - 1
                    <? Z.of_nat (Z.to_nat DataLen
                                 + length (drop (Z.to_nat DataLen) pfOUT)))
                = true).
  { apply andb_true_intro. split; [apply Z.leb_le | apply Z.ltb_lt]; lia. }
  rewrite Hin. unfold ret. do 2 f_equal.
  rewrite insert_app_l by (rewrite length_replicate; lia).
  replace (Z.to_nat DataLen) with (S (Z.to_nat (DataLen - 1))) at 1 by lia.
  rewrite replicate_S_end.
  rewrite insert_app_r_alt by (rewrite length_replicate; lia).
  rewrite length_replicate, Nat.sub_diag. simpl. now rewrite <- app_assoc.
Qed.

(** An input array shorter than [DataLen] is read outside its extent. *)
Lemma load_outside (a : list float) (i : Z) (w : World) :
  Z.of_nat (length a) <= i -> load a i w = Crashes OutOfBounds.
Proof.
  intros Hi. unfold load.
  destruct (Z.leb_spec 0 i) as [_|]; [|reflexivity].
  rewrite (lookup_ge_None_2 a (Z.to_nat i)) by lia. reflexivity.
Qed.

(** X1. The extents the callback needs are exactly [DataLen] slots of each
    of the output array and the first two input arrays: with them it returns,
    and with any of the three shorter it accesses an array out of bounds. The
    third input array is never accessed and may be of any length. *)
Theorem RoxSignal_returns_iff_arrays_cover_DataLen
    (DataLen : Z) (pfOUT pfINa pfINb pfINc : list float) (w : World) :
  0 < DataLen ->
  Forall (fun x => is_float x = true) pfINa ->
  Forall (fun x => is_float x = true) pfINb ->
  if (DataLen <=? Z.of_nat (length pfOUT))
     && (DataLen <=? Z.of_nat (length pfINa))
     && (DataLen <=? Z.of_nat (length pfINb))
  then exists (out : list float) (w' : World),
         RoxSignal DataLen pfOUT pfINa pfINb pfINc w = Returns (out, w')
  else RoxSignal DataLen pfOUT pfINa pfINb pfINc w = Crashes OutOfBounds.
Proof.
  intros Hpos Hfa Hfb.
  destruct (Z.leb_spec DataLen (Z.of_nat (length pfOUT))) as [Hout|Hout];
    cbn [andb].
  - assert (Hinit : init_output (Z.to_nat DataLen) 0 DataLen pfOUT w
                    = Returns ((replicate (Z.to_nat DataLen) zero
                                ++ drop (Z.to_nat DataLen) pfOUT)%list, w)).
    { rewrite <- (take_drop (Z.to_nat DataLen) pfOUT) at 1.
      pose proof (init_output_frame (Z.to_nat DataLen) []
                    (take (Z.to_nat DataLen) pfOUT)
                    (drop (Z.to_nat DataLen) pfOUT) DataLen w) as H.
      assert (Htake : length (take (Z.to_nat DataLen) pfOUT) = Z.to_nat DataLen)
        by (rewrite length_take; lia).
      rewrite Htake in H. apply H; simpl; lia. }
    destruct (Z.leb_spec DataLen (Z.of_nat (length pfINa))) as [Hla|Hla];
      cbn [andb].
    + destruct (Z.leb_spec DataLen (Z.of_nat (length pfINb))) as [Hlb|Hlb].
      * destruct (lookup_lt_is_Some_2 pfINa (Z.to_nat (DataLen - 1)))
          as [lastPrice Ha]; [lia|].
        destruct (lookup_lt_is_Some_2 pfINb (Z.to_nat (DataLen - 1)))
          as [lastVol Hb]; [lia|].
        eexists. eexists.
        apply (RoxSignal_run_frame DataLen pfOUT pfINa pfINb pfINc
                 lastPrice lastVol); auto.
        -- exact (Forall_lookup_1 _ _ _ _ Hfa Ha).
        -- exact (Forall_lookup_1 _ _ _ _ Hfb Hb).
      * destruct (lookup_lt_is_Some_2 pfINa (Z.to_nat (DataLen - 1)))
          as [lastPrice Ha]; [lia|].
        unfold RoxSignal. unfold bind at 1. rewrite Hinit.
        destruct (Z.ltb_spec 0 DataLen) as [_|]; [|lia].
        unfold bind at 1. unfold load at 1.
        destruct (Z.leb_spec 0 (DataLen - 1)) as [_|]; [|lia].
        rewrite Ha. unfold ret at 1. unfold bind at 1.
        rewrite load_outside by lia. reflexivity.
    + unfold RoxSignal. unfold bind at 1. rewrite Hinit.
      destruct (Z.ltb_spec 0 DataLen) as [_|]; [|lia].
      unfold bind at 1. rewrite load_outside by lia. reflexivity.
  - unfold RoxSignal. unfold bind at 1.
    rewrite init_output_overrun; [reflexivity | lia | simpl; lia | lia | lia].
Qed.

(** X2. On an output array longer than [DataLen > 0], the callback writes
    the first [DataLen] slots only: the array it leaves has the length it
    had, and every slot from index [DataLen] on holds what it held. *)
Theorem RoxSignal_writes_within_DataLen
    (DataLen : Z) (pfOUT pfINa pfINb pfINc : list float) (w : World) :
  0 < DataLen ->
  DataLen <= Z.of_nat (length pfOUT) ->
  DataLen <= Z.of_nat (length pfINa) ->
  DataLen <= Z.of_nat (length pfINb) ->
  Forall (fun x => is_float x = true) pfINa ->
  Forall (fun x => is_float x = true) pfINb ->
  exists (out : list float) (w' : World),
    RoxSignal DataLen pfOUT pfINa pfINb pfINc w = Returns (out, w') /\
    length out = length pfOUT /\
    (forall i : nat, (Z.to_nat DataLen <= i)%nat -> out !! i = pfOUT !! i).
Proof.
  intros Hpos Hout Hla Hlb Hfa Hfb.
  destruct (lookup_lt_is_Some_2 pfINa (Z.to_nat (DataLen - 1)))
    as [lastPrice Ha]; [lia|].
  destruct (lookup_lt_is_Some_2 pfINb (Z.to_nat (DataLen - 1)))
    as [lastVol Hb]; [lia|].
  eexists. eexists.
  split.
  { apply (RoxSignal_run_frame DataLen pfOUT pfINa pfINb pfINc
             lastPrice lastVol); auto.
    - exact (Forall_lookup_1 _ _ _ _ Hfa Ha).
    - exact (Forall_lookup_1 _ _ _ _ Hfb Hb). }
  split.
  - rewrite !length_app, length_replicate, length_drop. simpl. lia.
  - intros i Hi.
    rewrite app_assoc.
    rewrite lookup_app_r
      by (rewrite length_app, length_replicate; simpl; lia).
    rewrite length_app, length_replicate. simpl length.
    rewrite lookup_drop. f_equal. lia.
Qed.


(* ===================================================================== *)
(** ** [CallRoxServer] and its request buffer                             *)
(* ===================================================================== *)

(** [%.2f] prints three characters at least. *)
Lemma fmt_2f_min_length (special : string) (x : float) :
  (3 <= String.length (CRT.fmt_2f special x))%nat.
Proof.
  pose proof (special_text_length special x) as Hsp.
  destruct x as [s|s| |s m e]; unfold CRT.fmt_2f; simpl CRT.fixed_text.
  - destruct s; simpl; lia.
  - lia.
  - lia.
  - unfold CRT.fixed2. rewrite !length_append. simpl String.length. lia.
Qed.

(** The request text is 29 characters longer than its three fields. *)
Lemma payload_length (ex : Exchange) (stockCode : string) (price vol : float) :
  CRT.strlen (payload_text ex stockCode price vol)
  = 29 + CRT.strlen stockCode + CRT.strlen (CRT.fmt_2f (price_text ex) price)
    + CRT.strlen (CRT.fmt_2f (vol_text ex) vol).
Proof.
  unfold payload_text, CRT.strlen. rewrite !length_append.
  simpl String.length. lia.
Qed.

(** When a handle is missing, the request text is never written, and the
    call returns 0.0 whatever that text would have been. *)
Lemma CallRoxServer_unreached (stockCode : string) (price vol : float) (w : World) :
  reaches_send (next w) = false ->
  CallRoxServer stockCode price vol w
  = Returns (zero, advance w (calls stockCode price vol (next w))).
Proof.
  unfold CallRoxServer, advance, calls, reaches_send, closing, close_if_open,
    WinHttpOpen, WinHttpConnect, WinHttpOpenRequest, WinHttpCloseHandle,
    record, bind, ret.
  destruct (next w) as [hS hC hR snd rcv qry rd pt vt]. step.
  destruct (is_null hS); step; [intros _; done_log|].
  destruct (is_null hC); step; [intros _; done_log|].
  destruct (is_null hR); step; [intros _; done_log|].
  discriminate.
Qed.

(** X4. An instrument code of 221 characters or more does not fit the
    request buffer of 256 bytes, whatever the price and the volume: once the
    session, the connection and the request are open, [sprintf_s] stops the
    process. When one of the three handles is missing the text is never
    written: the call returns 0.0 and sends nothing. *)
Theorem CallRoxServer_overlong_code
    (stockCode : string) (price vol : float) (w : World) :
  (221 <= String.length stockCode)%nat ->
  if reaches_send (next w)
  then CallRoxServer stockCode price vol w = Crashes InvalidParameter
  else exists w' : World,
         CallRoxServer stockCode price vol w = Returns (zero, w') /\
         count is_send (log w') = count is_send (log w).
Proof.
  intros Hlong.
  destruct (reaches_send (next w)) eqn:Hr.
  - apply CallRoxServer_overflow; [|exact Hr].
    rewrite payload_length.
    pose proof (fmt_2f_min_length (price_text (next w)) price).
    pose proof (fmt_2f_min_length (vol_text (next w)) vol).
    unfold CRT.strlen. lia.
  - eexists. split; [now apply CallRoxServer_unreached|].
    unfold advance. cbn [log]. rewrite count_app, calls_send, Hr. lia.
Qed.

(** X5. The bodies [RoxSignal] sends are between 42 and 122 bytes long, so
    they fit the request buffer with room to spare. *)
Theorem RoxSignal_body_length
    (DataLen : Z) (pfOUT pfINa pfINb pfINc : list float) (w : World) :
  0 < DataLen ->
  host_arrays DataLen pfOUT pfINa pfINb ->
  exists (out : list float) (w' : World) (tr : list Call),
    RoxSignal DataLen pfOUT pfINa pfINb pfINc w = Returns (out, w') /\
    log w' = (log w ++ tr)%list /\
    Forall (fun body => 42 <= CRT.strlen body <= 122) (bodies_sent tr).
Proof.
  intros Hpos (Hout & Hla & Hlb & Hfa & Hfb).
  destruct (last_float DataLen pfINa Hpos Hla Hfa) as (lastPrice & Ha & Hpa).
  destruct (last_float DataLen pfINb Hpos Hlb Hfb) as (lastVol & Hb & Hpb).
  eexists. eexists. exists (calls "UNKNOWN" lastPrice lastVol (next w)).
  split; [exact (RoxSignal_run DataLen pfOUT pfINa pfINb pfINc lastPrice lastVol
                   w Hpos Hout Ha Hb Hpa Hpb)|].
  split; [reflexivity|].
  rewrite calls_bodies. destruct (reaches_send (next w)); [|constructor].
  constructor; [|constructor].
  rewrite payload_length.
  pose proof (fmt_2f_min_length (price_text (next w)) lastPrice).
  pose proof (fmt_2f_min_length (vol_text (next w)) lastVol).
  pose proof (fmt_2f_length (price_text (next w)) lastPrice Hpa).
  pose proof (fmt_2f_length (vol_text (next w)) lastVol Hpb).
  unfold CRT.strlen. simpl String.length. lia.
Qed.

(* ===================================================================== *)
(** ** [CallRoxServer] and the WinHTTP protocol                           *)
(* ===================================================================== *)

Lemma calls_in_order (stockCode : string) (price vol : float) (ex : Exchange) :
  map stage (before_close (calls stockCode price vol ex))
  = seq 0 (length (before_close (calls stockCode price vol ex))) /\
  forallb is_close (from_close (calls stockCode price vol ex)) = true.
Proof. calls_cases ex; split; reflexivity. Qed.

Lemma before_from_close (l : list Call) :
  l = (before_close l ++ from_close l)%list.
Proof.
  induction l as [|c l IH]; [reflexivity|]. simpl.
  destruct (is_close c); [reflexivity | simpl; now rewrite <- IH].
Qed.

(** X6. The calls of one invocation follow the order of an HTTP exchange:
    up to the first [WinHttpCloseHandle] they are the stages open, connect,
    open request, send, receive, size query, read, taken from the first on
    with none skipped and none repeated, and from the first close on there
    are only closes. So no handle is used once a handle has been closed. *)
Theorem CallRoxServer_calls_in_protocol_order
    (stockCode : string) (price vol : float) (w : World) :
  is_float price = true -> is_float vol = true ->
  (String.length stockCode <= 140)%nat ->
  exists (r : float) (w' : World) (tr : list Call),
    CallRoxServer stockCode price vol w = Returns (r, w') /\
    log w' = (log w ++ tr)%list /\
    tr = (before_close tr ++ from_close tr)%list /\
    map stage (before_close tr) = seq 0 (length (before_close tr)) /\
    forallb is_close (from_close tr) = true.
Proof.
  intros Hp Hv Hc.
  pose proof (payload_fits (next w) stockCode price vol Hp Hv Hc) as Hfit.
  exists (answer (next w)). eexists. exists (calls stockCode price vol (next w)).
  split; [now apply CallRoxServer_run|].
  split; [reflexivity|].
  split; [apply before_from_close|].
  apply calls_in_order.
Qed.

Lemma calls_handles_ok (stockCode : string) (price vol : float) (ex : Exchange) :
  handles_ok [] (calls stockCode price vol ex) = true.
Proof.
  calls_cases ex;
    rewrite ?HS, ?HC, ?HR, ?Z.eqb_refl; cbn; rewrite ?orb_true_r; reflexivity.
Qed.

Lemma handles_ok_sound (l : list Call) :
  forall (live : list HINTERNET),
    handles_ok live l = true ->
    forall (pre post : list Call) (c : Call) (h : HINTERNET),
      l = (pre ++ c :: post)%list -> handle_used c = Some h ->
      h <> NULL /\ (In h live \/ In h (opened_handles pre)).
Proof.
  induction l as [|c0 l IH]; intros live Hok pre post c h Hl Hused.
  - destruct pre; discriminate.
  - simpl in Hok. apply andb_prop in Hok. destruct Hok as [Hhead Htail].
    destruct pre as [|c1 pre]; simpl in Hl; injection Hl as Hc Hl.
    + subst c0. rewrite Hused in Hhead.
      apply andb_prop in Hhead. destruct Hhead as [Hnz Hin].
      apply negb_true_iff in Hnz. unfold is_null in Hnz.
      apply Z.eqb_neq in Hnz.
      apply existsb_exists in Hin. destruct Hin as (h' & Hin & Heq).
      apply Z.eqb_eq in Heq. subst h'. split; [exact Hnz | now left].
    + subst c1.
      destruct (IH _ Htail pre post c h Hl Hused) as [Hnz Hin].
      split; [exact Hnz|].
      unfold opened_handles. simpl omap.
      destruct (handle_opened c0) as [h0|]; simpl in *; tauto.
Qed.

(** X7. Every handle [CallRoxServer] passes to WinHTTP is one that an earlier
    call of the same invocation returned, and is not [NULL]. *)
Theorem CallRoxServer_uses_handles_it_opened
    (stockCode : string) (price vol : float) (w : World) :
  is_float price = true -> is_float vol = true ->
  (String.length stockCode <= 140)%nat ->
  exists (r : float) (w' : World) (tr : list Call),
    CallRoxServer stockCode price vol w = Returns (r, w') /\
    log w' = (log w ++ tr)%list /\
    forall (pre post : list Call) (c : Call) (h : HINTERNET),
      tr = (pre ++ c :: post)%list -> handle_used c = Some h ->
      h <> NULL /\ In h (opened_handles pre).
Proof.
  intros Hp Hv Hc.
  pose proof (payload_fits (next w) stockCode price vol Hp Hv Hc) as Hfit.
  exists (answer (next w)). eexists. exists (calls stockCode price vol (next w)).
  split; [now apply CallRoxServer_run|].
  split; [reflexivity|].
  intros pre post c h Htr Hused.
  destruct (handles_ok_sound _ [] (calls_handles_ok stockCode price vol (next w))
              pre post c h Htr Hused) as [Hnz [[]|Hin]].
  split; assumption.
Qed.

(** X8. [CallRoxServer] talks to one endpoint only: every connection is to
    127.0.0.1 port 8000, every request is a POST of /api/tdx/calculate with
    the JSON content type, and the length announced is the length of the
    body, whatever the code, the price and the volume. *)
Theorem CallRoxServer_fixed_endpoint
    (stockCode : string) (price vol : float) (w : World) :
  is_float price = true -> is_float vol = true ->
  (String.length stockCode <= 140)%nat ->
  exists (r : float) (w' : World) (tr : list Call),
    CallRoxServer stockCode price vol w = Returns (r, w') /\
    log w' = (log w ++ tr)%list /\
    Forall fixed_endpoint tr.
Proof.
  intros Hp Hv Hc.
  pose proof (payload_fits (next w) stockCode price vol Hp Hv Hc) as Hfit.
  exists (answer (next w)). eexists. exists (calls stockCode price vol (next w)).
  split; [now apply CallRoxServer_run|].
  split; [reflexivity|].
  unfold calls, closing.
  destruct (is_null (open_session (next w))), (is_null (connect (next w))),
    (is_null (open_request (next w))), (send (next w)),
    ((0 <? size_seen (next w)) && (size_seen (next w) <? 63));
    repeat constructor.
Qed.

(** X9. A read never asks for more than its buffer of 64 bytes can take with
    the terminating NUL: whenever [WinHttpReadData] is called, it is for the
    number of bytes just reported as available, and that number is between 1
    and 62. *)
Theorem CallRoxServer_read_fits_buffer
    (stockCode : string) (price vol : float) (w : World) :
  is_float price = true -> is_float vol = true ->
  (String.length stockCode <= 140)%nat ->
  exists (r : float) (w' : World) (tr : list Call),
    CallRoxServer stockCode price vol w = Returns (r, w') /\
    log w' = (log w ++ tr)%list /\
    Forall (read_of_size (CRT.strlen (available (next w)))) tr.
Proof.
  intros Hp Hv Hc.
  pose proof (payload_fits (next w) stockCode price vol Hp Hv Hc) as Hfit.
  exists (answer (next w)). eexists. exists (calls stockCode price vol (next w)).
  split; [now apply CallRoxServer_run|].
  split; [reflexivity|].
  unfold calls, closing.
  destruct ((0 <? size_seen (next w)) && (size_seen (next w) <? 63)) eqn:Hsz.
  - apply andb_prop in Hsz. destruct Hsz as [Hpos Hlt].
    apply Z.ltb_lt in Hpos, Hlt.
    assert (Heq : size_seen (next w) = CRT.strlen (available (next w))).
    { unfold size_seen in *. destruct (_ && _); [reflexivity | lia]. }
    destruct (is_null (open_session (next w))), (is_null (connect (next w))),
      (is_null (open_request (next w))), (send (next w));
      repeat constructor; simpl; lia.
  - destruct (is_null (open_session (next w))), (is_null (connect (next w))),
      (is_null (open_request (next w))), (send (next w));
      repeat constructor.
Qed.

(* ===================================================================== *)
(** ** The further theorems at one refresh of three bars                  *)
(* ===================================================================== *)

Lemma bars_price_are_floats : Forall (fun x => is_float x = true) bars_price.
Proof. repeat constructor. Defined.

Lemma bars_vol_are_floats : Forall (fun x => is_float x = true) bars_vol.
Proof. repeat constructor. Defined.

Lemma three_le_three : 3 <= Z.of_nat (length bars_price).
Proof. discriminate. Defined.

Lemma three_le_three_vol : 3 <= Z.of_nat (length bars_vol).
Proof. discriminate. Defined.

Lemma three_le_four : 3 <= Z.of_nat (length (bars_out ++ [f_1])%list).
Proof. discriminate. Defined.

Lemma long_code_is_long : (221 <= String.length long_code)%nat.
Proof. apply Nat.leb_le. reflexivity. Defined.

Lemma RoxSignal_returns_iff_arrays_cover_DataLen_witness :
  0 < 3 /\
  Forall (fun x => is_float x = true) bars_price /\
  Forall (fun x => is_float x = true) bars_vol /\
  if (3 <=? Z.of_nat (length bars_out))
     && (3 <=? Z.of_nat (length bars_price))
     && (3 <=? Z.of_nat (length bars_vol))
  then exists (out : list float) (w' : World),
         RoxSignal 3 bars_out bars_price bars_vol [] service_up
         = Returns (out, w')
  else RoxSignal 3 bars_out bars_price bars_vol [] service_up
       = Crashes OutOfBounds.
Proof.
  split; [exact three_bars|]. split; [exact bars_price_are_floats|].
  split; [exact bars_vol_are_floats|].
  exact (RoxSignal_returns_iff_arrays_cover_DataLen 3 bars_out bars_price
           bars_vol [] service_up three_bars bars_price_are_floats
           bars_vol_are_floats).
Defined.

Lemma RoxSignal_writes_within_DataLen_witness :
  0 < 3 /\
  3 <= Z.of_nat (length (bars_out ++ [f_1])%list) /\
  3 <= Z.of_nat (length bars_price) /\
  3 <= Z.of_nat (length bars_vol) /\
  Forall (fun x => is_float x = true) bars_price /\
  Forall (fun x => is_float x = true) bars_vol /\
  exists (out : list float) (w' : World),
    RoxSignal 3 (bars_out ++ [f_1])%list bars_price bars_vol [] service_up
    = Returns (out, w') /\
    length out = length (bars_out ++ [f_1])%list /\
    (forall i : nat,
        (Z.to_nat 3 <= i)%nat -> out !! i = (bars_out ++ [f_1])%list !! i).
Proof.
  split; [exact three_bars|]. split; [exact three_le_four|].
  split; [exact three_le_three|]. split; [exact three_le_three_vol|].
  split; [exact bars_price_are_floats|]. split; [exact bars_vol_are_floats|].
  exact (RoxSignal_writes_within_DataLen 3 (bars_out ++ [f_1])%list bars_price
           bars_vol [] service_up three_bars three_le_four three_le_three
           three_le_three_vol bars_price_are_floats bars_vol_are_floats).
Defined.


Lemma CallRoxServer_overlong_code_witness :
  (221 <= String.length long_code)%nat /\
  if reaches_send (next service_up)
  then CallRoxServer long_code f_10 f_500 service_up = Crashes InvalidParameter
  else exists w' : World,
         CallRoxServer long_code f_10 f_500 service_up = Returns (zero, w') /\
         count is_send (log w') = count is_send (log service_up).
Proof.
  split; [exact long_code_is_long|].
  exact (CallRoxServer_overlong_code long_code f_10 f_500 service_up
           long_code_is_long).
Defined.

Lemma RoxSignal_body_length_witness :
  0 < 3 /\ host_arrays 3 bars_out bars_price bars_vol /\
  exists (out : list float) (w' : World) (tr : list Call),
    RoxSignal 3 bars_out bars_price bars_vol [] service_up = Returns (out, w') /\
    log w' = (log service_up ++ tr)%list /\
    Forall (fun body => 42 <= CRT.strlen body <= 122) (bodies_sent tr).
Proof.
  split; [exact three_bars|]. split; [exact bars_are_host_arrays|].
  exact (RoxSignal_body_length 3 bars_out bars_price bars_vol [] service_up
           three_bars bars_are_host_arrays).
Defined.

Lemma CallRoxServer_calls_in_protocol_order_witness :
  is_float f_10 = true /\ is_float f_500 = true /\
  (String.length "UNKNOWN" <= 140)%nat /\
  exists (r : float) (w' : World) (tr : list Call),
    CallRoxServer "UNKNOWN" f_10 f_500 service_up = Returns (r, w') /\
    log w' = (log service_up ++ tr)%list /\
    tr = (before_close tr ++ from_close tr)%list /\
    map stage (before_close tr) = seq 0 (length (before_close tr)) /\
    forallb is_close (from_close tr) = true.
Proof.
  split; [exact f_10_is_float|]. split; [exact f_500_is_float|].
  split; [exact unknown_is_short|].
  exact (CallRoxServer_calls_in_protocol_order "UNKNOWN" f_10 f_500 service_up
           f_10_is_float f_500_is_float unknown_is_short).
Defined.

Lemma CallRoxServer_uses_handles_it_opened_witness :
  is_float f_10 = true /\ is_float f_500 = true /\
  (String.length "UNKNOWN" <= 140)%nat /\
  exists (r : float) (w' : World) (tr : list Call),
    CallRoxServer "UNKNOWN" f_10 f_500 service_up = Returns (r, w') /\
    log w' = (log service_up ++ tr)%list /\
    forall (pre post : list Call) (c : Call) (h : HINTERNET),
      tr = (pre ++ c :: post)%list -> handle_used c = Some h ->
      h <> NULL /\ In h (opened_handles pre).
Proof.
  split; [exact f_10_is_float|]. split; [exact f_500_is_float|].
  split; [exact unknown_is_short|].
  exact (CallRoxServer_uses_handles_it_opened "UNKNOWN" f_10 f_500 service_up
           f_10_is_float f_500_is_float unknown_is_short).
Defined.

Lemma CallRoxServer_fixed_endpoint_witness :
  is_float f_10 = true /\ is_float f_500 = true /\
  (String.length "UNKNOWN" <= 140)%nat /\
  exists (r : float) (w' : World) (tr : list Call),
    CallRoxServer "UNKNOWN" f_10 f_500 service_up = Returns (r, w') /\
    log w' = (log service_up ++ tr)%list /\
    Forall fixed_endpoint tr.
Proof.
  split; [exact f_10_is_float|]. split; [exact f_500_is_float|].
  split; [exact unknown_is_short|].
  exact (CallRoxServer_fixed_endpoint "UNKNOWN" f_10 f_500 service_up
           f_10_is_float f_500_is_float unknown_is_short).
Defined.

Lemma CallRoxServer_read_fits_buffer_witness :
  is_float f_10 = true /\ is_float f_500 = true /\
  (String.length "UNKNOWN" <= 140)%nat /\
  exists (r : float) (w' : World) (tr : list Call),
    CallRoxServer "UNKNOWN" f_10 f_500 service_up = Returns (r, w') /\
    log w' = (log service_up ++ tr)%list /\
    Forall (read_of_size (CRT.strlen (available (next service_up)))) tr.
Proof.
  split; [exact f_10_is_float|]. split; [exact f_500_is_float|].
  split; [exact unknown_is_short|].
  exact (CallRoxServer_read_fits_buffer "UNKNOWN" f_10 f_500 service_up
           f_10_is_float f_500_is_float unknown_is_short).
Defined.
